(** * loan-track: the loan record and the analytics built on it

    A shallow embedding of [models/loan.model.ts], [utils/date.utils.ts],
    the status column of [utils/format.utils.ts] and the analytics of
    [services/analytics.service.ts].

    Numbers.  A TypeScript [number] is modelled by [number]: an exact
    rational, or one of the three special values [Infinity], [-Infinity]
    and [NaN], with the arithmetic and the comparisons JavaScript gives
    to the special values (a division by zero does not fail, it yields an
    infinity or [NaN]; every comparison with [NaN] is false).  The
    rounding of binary64 and the sign of zero are not part of [number];
    the properties stated over it are those that do not depend on the
    rounding.  Where the rounding decides, the code is read over
    [Binary64.float].

    Dates.  A [Date] is its time value: milliseconds since the epoch, or
    no value for an invalid date.  The built-in parser of date strings is
    a parameter of the development, and the clock read by [new Date()]
    is an explicit argument [now]: a call of an analytics function is
    evaluated at one instant. *)

From Stdlib Require Import ZArith QArith Qcanon Qround List String Ascii Bool Lia.
From Stdlib Require Import Sorting.Sorted DecimalString Permutation Lqa.
From Stdlib Require SpecFloat.
Import ListNotations.

Local Open Scope Z_scope.

(** ** JavaScript numbers *)

Module JS.

Inductive number : Type :=
| Num (q : Qc)
| PosInf
| NegInf
| NaN.

Definition ofQ (q : Q) : number := Num (Q2Qc q).
Definition ofZ (z : Z) : number := Num (Q2Qc (inject_Z z)).
Definition ofNat (n : nat) : number := ofZ (Z.of_nat n).

Definition zero : number := ofZ 0.

(** Sign of a rational as a comparison with zero. *)
Definition Qcsign (q : Qc) : comparison := (q ?= Q2Qc 0)%Qc.

Definition isFinite (x : number) : bool :=
  match x with Num _ => true | _ => false end.

Definition isNaN (x : number) : bool :=
  match x with NaN => true | _ => false end.

(** [if (x)]: zero and [NaN] are falsy. *)
Definition truthy (x : number) : bool :=
  match x with
  | Num q => match Qcsign q with Eq => false | _ => true end
  | PosInf | NegInf => true
  | NaN => false
  end.

Definition neg (x : number) : number :=
  match x with
  | Num q => Num (- q)%Qc
  | PosInf => NegInf
  | NegInf => PosInf
  | NaN => NaN
  end.

Definition add (x y : number) : number :=
  match x, y with
  | NaN, _ | _, NaN => NaN
  | Num a, Num b => Num (a + b)%Qc
  | PosInf, NegInf | NegInf, PosInf => NaN
  | PosInf, _ | _, PosInf => PosInf
  | NegInf, _ | _, NegInf => NegInf
  end.

Definition sub (x y : number) : number := add x (neg y).

(** An infinity of the sign of [c]; [NaN] when [c] is [Eq]. *)
Definition signedInf (c : comparison) : number :=
  match c with Gt => PosInf | Lt => NegInf | Eq => NaN end.

Definition flip (c : comparison) : comparison := CompOpp c.

Definition mul (x y : number) : number :=
  match x, y with
  | NaN, _ | _, NaN => NaN
  | Num a, Num b => Num (a * b)%Qc
  | Num a, PosInf | PosInf, Num a => signedInf (Qcsign a)
  | Num a, NegInf | NegInf, Num a => signedInf (flip (Qcsign a))
  | PosInf, PosInf | NegInf, NegInf => PosInf
  | PosInf, NegInf | NegInf, PosInf => NegInf
  end.

Definition div (x y : number) : number :=
  match x, y with
  | NaN, _ | _, NaN => NaN
  | Num a, Num b =>
      match Qcsign b with
      | Eq => signedInf (Qcsign a)
      | _ => Num (a / b)%Qc
      end
  | Num _, (PosInf | NegInf) => zero
  | PosInf, Num b => match Qcsign b with Lt => NegInf | _ => PosInf end
  | NegInf, Num b => match Qcsign b with Lt => PosInf | _ => NegInf end
  | (PosInf | NegInf), (PosInf | NegInf) => NaN
  end.

(** Relational comparison of two numbers; [None] when one is [NaN]. *)
Definition cmp (x y : number) : option comparison :=
  match x, y with
  | NaN, _ | _, NaN => None
  | Num a, Num b => Some (a ?= b)%Qc
  | PosInf, PosInf | NegInf, NegInf => Some Eq
  | PosInf, _ | _, NegInf => Some Gt
  | NegInf, _ | _, PosInf => Some Lt
  end.

Definition lt (x y : number) : bool :=
  match cmp x y with Some Lt => true | _ => false end.
Definition gt (x y : number) : bool := lt y x.
Definition le (x y : number) : bool :=
  match cmp x y with Some Lt | Some Eq => true | _ => false end.
Definition ge (x y : number) : bool := le y x.

(** [Math.min] and [Math.max] of two arguments. *)
Definition min2 (x y : number) : number :=
  match cmp x y with
  | None => NaN
  | Some Gt => y
  | Some _ => x
  end.

Definition max2 (x y : number) : number :=
  match cmp x y with
  | None => NaN
  | Some Lt => y
  | Some _ => x
  end.

(** [Math.max(...xs)] and [Math.min(...xs)]: the empty call gives
    [-Infinity], respectively [Infinity]. *)
Definition maxOf (xs : list number) : number := fold_left max2 xs NegInf.
Definition minOf (xs : list number) : number := fold_left min2 xs PosInf.

Definition abs (x : number) : number :=
  match x with
  | Num q => match Qcsign q with Lt => Num (- q)%Qc | _ => Num q end
  | PosInf | NegInf => PosInf
  | NaN => NaN
  end.

(** [Math.round]: the nearest integer, a tie going up. *)
Definition round (x : number) : number :=
  match x with
  | Num q => ofZ (Qfloor (q + Q2Qc (1 # 2))%Qc)
  | _ => x
  end.

End JS.

(** ** Dates *)

Module Date.

(** The time value of a [Date]: milliseconds since the epoch, [None] for
    an invalid date (whose time value is [NaN]). *)
Definition time : Type := option Z.

(** [a < b], [a > b] and [a >= b] on two dates compare the time values;
    with an invalid date every comparison is false. *)
Definition lt (a b : time) : bool :=
  match a, b with
  | Some x, Some y => x <? y
  | _, _ => false
  end.

Definition gt (a b : time) : bool := lt b a.

Definition ge (a b : time) : bool :=
  match a, b with
  | Some x, Some y => y <=? x
  | _, _ => false
  end.

(** [!isNaN(date.getTime())] *)
Definition hasTime (a : time) : bool :=
  match a with Some _ => true | None => false end.

Definition msPerDay : Z := 86400000.

(** [d.setDate(d.getDate() - days)] on the date of time value [t], in a
    time zone whose offset does not change over the interval. *)
Definition minusDays (t : Z) (days : Z) : Z := t - days * msPerDay.

(** The start of the UTC day that contains the instant [t]. *)
Definition startOfDay (t : Z) : Z := t - t mod msPerDay.

(** *** A reader of date-only strings

    [isoDay] reads ["YYYY-MM-DD"] as midnight UTC, which is what the
    built-in parser gives for that format and a day of the calendar.
    It serves as a concrete instance of the parser in the examples
    below, whose dates are all days of the calendar. *)

Definition digit (c : ascii) : option Z :=
  let n := Z.of_nat (nat_of_ascii c) in
  if (48 <=? n) && (n <=? 57) then Some (n - 48) else None.

Fixpoint digits (acc : Z) (cs : list ascii) : option Z :=
  match cs with
  | [] => Some acc
  | c :: cs' =>
      match digit c with
      | Some d => digits (10 * acc + d) cs'
      | None => None
      end
  end.

Definition isLeap (y : Z) : bool :=
  ((y mod 4 =? 0) && negb (y mod 100 =? 0)) || (y mod 400 =? 0).

Definition daysInMonth (y m : Z) : Z :=
  if m =? 2 then (if isLeap y then 29 else 28)
  else if (m =? 4) || (m =? 6) || (m =? 9) || (m =? 11) then 30
  else 31.

(** Days from 1970-01-01 to the civil date [y]-[m]-[d]. *)
Definition daysFromCivil (y m d : Z) : Z :=
  let y' := if m <=? 2 then y - 1 else y in
  let era := y' / 400 in
  let yoe := y' - era * 400 in
  let mp := if 2 <? m then m - 3 else m + 9 in
  let doy := (153 * mp + 2) / 5 + d - 1 in
  let doe := yoe * 365 + yoe / 4 - yoe / 100 + doy in
  era * 146097 + doe - 719468.

Definition isoDay (s : string) : time :=
  match list_ascii_of_string s with
  | [y1; y2; y3; y4; dash1; m1; m2; dash2; d1; d2] =>
      if (Ascii.eqb dash1 "-") && (Ascii.eqb dash2 "-") then
        match digits 0 [y1; y2; y3; y4], digits 0 [m1; m2], digits 0 [d1; d2] with
        | Some y, Some m, Some d =>
            if (1 <=? m) && (m <=? 12) && (1 <=? d) && (d <=? daysInMonth y m)
            then Some (daysFromCivil y m d * msPerDay)
            else None
        | _, _, _ => None
        end
      else None
  | _ => None
  end.

End Date.

(** ** The loan record ([interfaces/loan.interface.ts], [models/loan.model.ts]) *)

Import JS.

Record Loan : Type := mkLoan {
  id : string;
  lenderName : string;
  phoneNumber : string;
  amount : number;
  repaymentDate : string;
  interestRate : option number;   (* [interestRate?: number] *)
  isPaid : bool
}.

(** [LoanModel] copies the seven fields of the [Loan] it is built from. *)
Abbreviation LoanModel := Loan (only parsing).

(** [if (this.interestRate)]: an absent rate, a zero rate and a [NaN] rate
    all take the branch without interest. *)
Definition hasInterest (l : LoanModel) : option number :=
  match interestRate l with
  | Some r => if truthy r then Some r else None
  | None => None
  end.

Definition calculateTotalWithInterest (l : LoanModel) : number :=
  match hasInterest l with
  | Some r =>
      let interest := div (mul (amount l) r) (ofZ 100) in
      add (amount l) interest
  | None => amount l
  end.

(** The status column of [formatLoanTable]. *)
Inductive Status : Type := Paid | Overdue | Pending.

Section Clock.

(** [new Date(s)] for a string [s], and the instant read by [new Date()]. *)
Variable parse : string -> Date.time.
Variable now : Z.

Definition isOverdue (l : LoanModel) : bool :=
  Date.lt (parse (repaymentDate l)) (Some now) && negb (isPaid l).

Definition status (l : LoanModel) : Status :=
  if isPaid l then Paid else if isOverdue l then Overdue else Pending.

(** [utils/date.utils.ts] *)
Definition isValidDate (dateString : string) : bool :=
  let date := parse dateString in
  Date.hasTime date && Date.gt date (Some now).

End Clock.

(** ** [services/analytics.service.ts] *)

Record OverviewAnalytics : Type := mkOverview {
  totalLoans : number;
  activeLoans : number;
  paidLoans : number;
  overdueLoans : number;
  pendingLoans : number;
  totalDebt : number;
  totalInterest : number;
  overdueAmount : number;
  paidAmount : number;
  pendingAmount : number;
  averageLoanAmount : number;
  smallestLoan : number;
  largestLoan : number;
  paymentRate : number
}.

Inductive RiskLevel : Type := Low | Medium | High.

Record LenderAnalysis : Type := mkLenderAnalysis {
  la_name : string;
  la_totalLoans : number;
  la_totalAmount : number;
  la_paidLoans : number;
  la_overdueLoans : number;
  la_paymentRate : number;
  la_averageAmount : number;
  la_riskLevel : RiskLevel
}.

Inductive Trend : Type := up | down | stable.

Record PaymentTrend : Type := mkPaymentTrend {
  pt_period : string;
  pt_payments : number;
  pt_amount : number;
  pt_trend : Trend;
  pt_changePercentage : number
}.

Record RiskFactor : Type := mkRiskFactor {
  rf_name : string;
  rf_score : number;
  rf_impact : string;
  rf_recommendation : string
}.

(** The three bands of the summary, and the sentence
    [generateRiskAssessment] writes for each. *)
Inductive Summary : Type := HighRisk | ModerateRisk | LowRisk.

Definition summaryText (s : Summary) : string :=
  match s with
  | HighRisk =>
      "High risk portfolio requiring immediate attention. Focus on overdue collections and risk mitigation strategies."
  | ModerateRisk =>
      "Moderate risk portfolio. Monitor key metrics closely and implement preventive measures."
  | LowRisk =>
      "Low risk portfolio with good fundamentals. Maintain current practices and continue monitoring."
  end.

Record RiskAssessment : Type := mkRiskAssessment {
  overallRisk : number;
  factors : list RiskFactor;
  summary : string
}.

(** [xs.length] *)
Definition len {A : Type} (xs : list A) : number := ofNat (List.length xs).

(** [loans.reduce((sum, loan) => sum + loan.calculateTotalWithInterest(), 0)] *)
Definition sumTotals (loans : list LoanModel) : number :=
  fold_left (fun sum loan => add sum (calculateTotalWithInterest loan)) loans zero.

(** The reduction behind [totalInterest]. *)
Definition sumInterest (loans : list LoanModel) : number :=
  fold_left
    (fun sum loan =>
       match hasInterest loan with
       | Some r => add sum (div (mul (amount loan) r) (ofZ 100))
       | None => sum
       end)
    loans zero.

(** [n > 0 ? (k / n) * 100 : 0], the guarded percentage used throughout. *)
Definition percentOf (k n : number) : number :=
  if gt n zero then mul (div k n) (ofZ 100) else zero.

Section Analytics.

Variable parse : string -> Date.time.
Variable now : Z.

Definition generateOverviewAnalytics (loans : list LoanModel) : OverviewAnalytics :=
  let totalLoans := len loans in
  let paidLoans := len (filter isPaid loans) in
  let overdueLoans := len (filter (isOverdue parse now) loans) in
  let activeLoans := sub totalLoans paidLoans in
  let pendingLoans := sub activeLoans overdueLoans in
  let totalDebt := sumTotals loans in
  let totalInterest := sumInterest loans in
  let overdueAmount := sumTotals (filter (isOverdue parse now) loans) in
  let paidAmount := sumTotals (filter isPaid loans) in
  let pendingAmount := sub (sub totalDebt paidAmount) overdueAmount in
  let loanAmounts := map calculateTotalWithInterest loans in
  let averageLoanAmount :=
    if gt totalLoans zero then div totalDebt totalLoans else zero in
  let smallestLoan := if gt (len loanAmounts) zero then minOf loanAmounts else zero in
  let largestLoan := if gt (len loanAmounts) zero then maxOf loanAmounts else zero in
  let paymentRate := percentOf paidLoans totalLoans in
  {| totalLoans := totalLoans;
     activeLoans := activeLoans;
     paidLoans := paidLoans;
     overdueLoans := overdueLoans;
     pendingLoans := pendingLoans;
     totalDebt := totalDebt;
     totalInterest := totalInterest;
     overdueAmount := overdueAmount;
     paidAmount := paidAmount;
     pendingAmount := pendingAmount;
     averageLoanAmount := averageLoanAmount;
     smallestLoan := smallestLoan;
     largestLoan := largestLoan;
     paymentRate := paymentRate |}.

End Analytics.

(** *** A [Map<string, V>]

    A JavaScript [Map] iterates in insertion order, so it is modelled as
    an association list with distinct keys, a new key going to the end. *)

Section StringMap.

Context {V : Type}.

Definition smap : Type := list (string * V).

Fixpoint mapGet (k : string) (m : smap) : option V :=
  match m with
  | [] => None
  | (k', v) :: m' => if String.eqb k k' then Some v else mapGet k m'
  end.

Definition mapHas (k : string) (m : smap) : bool :=
  match mapGet k m with Some _ => true | None => false end.

(** Mutation of the object stored under [k] (no entry: no change). *)
Fixpoint mapUpdate (f : V -> V) (k : string) (m : smap) : smap :=
  match m with
  | [] => []
  | (k', v) :: m' =>
      if String.eqb k k' then (k', f v) :: m' else (k', v) :: mapUpdate f k m'
  end.

(** [m.set(k, v)]: an existing key keeps its place. *)
Definition mapSet (k : string) (v : V) (m : smap) : smap :=
  if mapHas k m then mapUpdate (fun _ => v) k m else m ++ [(k, v)].

Definition mapValues (m : smap) : list V := map snd m.

Definition keys (m : smap) : list string := map fst m.

End StringMap.

Arguments smap V : clear implicits.

(** *** [Array.prototype.sort]

    The sort is stable, and for a consistent comparator every stable sort
    returns the same array; it is modelled by insertion from the left,
    each element going before the first one it compares below. *)

Section Sort.

Context {A : Type}.
Variable compareFn : A -> A -> number.

Fixpoint insertBy (x : A) (l : list A) : list A :=
  match l with
  | [] => [x]
  | y :: l' =>
      if lt (compareFn x y) zero then x :: y :: l' else y :: insertBy x l'
  end.

Definition sortBy (l : list A) : list A :=
  fold_left (fun acc x => insertBy x acc) l [].

End Sort.

(** [xs.reduce((acc, x, index) => f(acc, x, index), init)] *)
Fixpoint reduceFrom {A B : Type} (f : B -> A -> nat -> B) (index : nat)
    (xs : list A) (acc : B) : B :=
  match xs with
  | [] => acc
  | x :: xs' => reduceFrom f (S index) xs' (f acc x index)
  end.

Definition reduceIdx {A B : Type} (f : B -> A -> nat -> B) (xs : list A) (init : B) : B :=
  reduceFrom f 0 xs init.

(** *** Lender analysis *)

Record LenderData : Type := mkLenderData {
  ld_loans : list LoanModel;
  ld_totalAmount : number;
  ld_paidLoans : number;
  ld_overdueLoans : number
}.

Definition emptyLenderData : LenderData :=
  {| ld_loans := []; ld_totalAmount := zero; ld_paidLoans := zero; ld_overdueLoans := zero |}.

(** [b.totalAmount - a.totalAmount] *)
Definition byTotalAmountDesc (a b : LenderAnalysis) : number :=
  sub (la_totalAmount b) (la_totalAmount a).

Definition periods : list string :=
  ["Last 7 days"; "Last 30 days"; "Last 90 days"; "Last 6 months"; "Last year"]%string.

Definition dayRanges : list Z := [7; 30; 90; 180; 365].

(** [weights[index]]; reading past the end gives [undefined], which
    turns a product into [NaN]. *)
Definition weights : list number :=
  [ofQ (3 # 10); ofQ (25 # 100); ofQ (15 # 100); ofQ (2 # 10); ofQ (1 # 10)].

Definition weightAt (index : nat) : number := nth index weights NaN.

(** The [if (prevAmount > 0)] block of [generatePaymentTrends]: the trend
    and the signed change, which start as ['stable'] and 0. *)
Definition compareWithPrevious (amount prevAmount : number) : Trend * number :=
  if gt prevAmount zero then
    let changePercentage := mul (div (sub amount prevAmount) prevAmount) (ofZ 100) in
    if gt changePercentage (ofZ 5) then (up, changePercentage)
    else if lt changePercentage (ofZ (-5)) then (down, changePercentage)
    else (stable, changePercentage)
  else (stable, zero).

Section Analytics2.

Variable parse : string -> Date.time.
Variable now : Z.

(** The body of the grouping [forEach]. *)
Definition recordLoan (loan : LoanModel) (data : LenderData) : LenderData :=
  {| ld_loans := ld_loans data ++ [loan];
     ld_totalAmount := add (ld_totalAmount data) (calculateTotalWithInterest loan);
     ld_paidLoans :=
       if isPaid loan then add (ld_paidLoans data) (ofZ 1) else ld_paidLoans data;
     ld_overdueLoans :=
       if isPaid loan then ld_overdueLoans data
       else if isOverdue parse now loan then add (ld_overdueLoans data) (ofZ 1)
       else ld_overdueLoans data |}.

Definition groupStep (lenderMap : smap LenderData) (loan : LoanModel) : smap LenderData :=
  let lenderMap1 :=
    if negb (mapHas (lenderName loan) lenderMap)
    then mapSet (lenderName loan) emptyLenderData lenderMap
    else lenderMap in
  mapUpdate (recordLoan loan) (lenderName loan) lenderMap1.

Definition groupByLender (loans : list LoanModel) : smap LenderData :=
  fold_left groupStep loans [].

Definition lenderEntry (entry : string * LenderData) : LenderAnalysis :=
  let (name, data) := entry in
  let totalLoans := len (ld_loans data) in
  let paymentRate := percentOf (ld_paidLoans data) totalLoans in
  let averageAmount :=
    if gt totalLoans zero then div (ld_totalAmount data) totalLoans else zero in
  let overdueRate := percentOf (ld_overdueLoans data) totalLoans in
  let riskLevel :=
    if gt overdueRate (ofZ 50) || lt paymentRate (ofZ 30) then High
    else if gt overdueRate (ofZ 20) || lt paymentRate (ofZ 60) then Medium
    else Low in
  {| la_name := name;
     la_totalLoans := totalLoans;
     la_totalAmount := ld_totalAmount data;
     la_paidLoans := ld_paidLoans data;
     la_overdueLoans := ld_overdueLoans data;
     la_paymentRate := paymentRate;
     la_averageAmount := averageAmount;
     la_riskLevel := riskLevel |}.

Definition generateLenderAnalysis (loans : list LoanModel) : list LenderAnalysis :=
  let analysis := map lenderEntry (groupByLender loans) in
  sortBy byTotalAmountDesc analysis.

(** *** Payment trends *)

(** The paid loans due at or after the instant [days] days before now. *)
Definition paidSince (days : Z) (loans : list LoanModel) : list LoanModel :=
  let cutoffDate := Date.minusDays now days in
  filter
    (fun loan =>
       let repaymentDate := parse (repaymentDate loan) in
       Date.ge repaymentDate (Some cutoffDate) && isPaid loan)
    loans.

(** One turn of the loop of [generatePaymentTrends]. *)
Definition trendAt (loans : list LoanModel) (i : nat) : PaymentTrend :=
  let period := nth i periods ""%string in
  let days := nth i dayRanges 0 in
  let periodLoans := paidSince days loans in
  let payments := len periodLoans in
  let amount := sumTotals periodLoans in
  let '(trend, changePercentage) :=
    if (0 <? i)%nat then
      let prevPeriodDays := nth (i - 1) dayRanges 0 in
      let prevAmount := sumTotals (paidSince prevPeriodDays loans) in
      compareWithPrevious amount prevAmount
    else (stable, zero) in
  {| pt_period := period;
     pt_payments := payments;
     pt_amount := amount;
     pt_trend := trend;
     pt_changePercentage := abs changePercentage |}.

Definition generatePaymentTrends (loans : list LoanModel) : list PaymentTrend :=
  map (trendAt loans) (seq 0 (List.length periods)).

End Analytics2.

(** *** Risk assessment *)

(** [loan.interestRate && loan.interestRate > 0] *)
Definition withInterest (loan : LoanModel) : bool :=
  match hasInterest loan with
  | Some r => gt r zero
  | None => false
  end.

(** The body of the exposure [forEach]; [get(...) || 0] replaces a
    missing and a falsy entry by 0. *)
Definition exposureStep (lenderMap : smap number) (loan : LoanModel) : smap number :=
  let current :=
    match mapGet (lenderName loan) lenderMap with
    | Some v => if truthy v then v else zero
    | None => zero
    end in
  mapSet (lenderName loan) (add current (calculateTotalWithInterest loan)) lenderMap.

Definition exposures (loans : list LoanModel) : smap number :=
  fold_left exposureStep loans [].

Definition weightedSum (factors : list RiskFactor) : number :=
  reduceIdx (fun sum factor index => add sum (mul (rf_score factor) (weightAt index)))
    factors zero.

Section Risk.

Variable parse : string -> Date.time.
Variable now : Z.

Definition overdueRateOf (loans : list LoanModel) : number :=
  percentOf (len (filter (isOverdue parse now) loans)) (len loans).

Definition overdueFactor (loans : list LoanModel) : RiskFactor :=
  let overdueRate := overdueRateOf loans in
  let overdueScore := min2 (mul overdueRate (ofZ 2)) (ofZ 100) in
  {| rf_name := "Overdue Rate";
     rf_score := overdueScore;
     rf_impact :=
       if gt overdueRate (ofZ 30) then "High"
       else if gt overdueRate (ofZ 15) then "Medium" else "Low";
     rf_recommendation :=
       if gt overdueRate (ofZ 30)
       then "Immediate action required - contact overdue borrowers"
       else if gt overdueRate (ofZ 15)
       then "Monitor closely and follow up on overdue loans"
       else "Maintain current collection practices" |}.

Definition concentrationRateOf (loans : list LoanModel) : number :=
  let lenderMap := exposures loans in
  let totalDebt := sumTotals loans in
  let maxLenderExposure := maxOf (mapValues lenderMap) in
  if gt totalDebt zero then mul (div maxLenderExposure totalDebt) (ofZ 100) else zero.

Definition concentrationFactor (loans : list LoanModel) : RiskFactor :=
  let concentrationRate := concentrationRateOf loans in
  let concentrationScore :=
    if gt concentrationRate (ofZ 50) then ofZ 80
    else if gt concentrationRate (ofZ 30) then ofZ 50 else ofZ 20 in
  {| rf_name := "Concentration Risk";
     rf_score := concentrationScore;
     rf_impact :=
       if gt concentrationRate (ofZ 50) then "High"
       else if gt concentrationRate (ofZ 30) then "Medium" else "Low";
     rf_recommendation :=
       if gt concentrationRate (ofZ 50)
       then "Diversify lending portfolio to reduce single-lender dependency"
       else if gt concentrationRate (ofZ 30)
       then "Consider diversifying to reduce concentration risk"
       else "Good diversification across lenders" |}.

Definition noInterestRateOf (loans : list LoanModel) : number :=
  let loansWithInterest := filter withInterest loans in
  if gt (len loans) zero
  then mul (div (sub (len loans) (len loansWithInterest)) (len loans)) (ofZ 100)
  else zero.

Definition interestFactor (loans : list LoanModel) : RiskFactor :=
  let noInterestRate := noInterestRateOf loans in
  let interestRiskScore :=
    if gt noInterestRate (ofZ 70) then ofZ 60
    else if gt noInterestRate (ofZ 40) then ofZ 30 else ofZ 10 in
  {| rf_name := "Interest Rate Risk";
     rf_score := interestRiskScore;
     rf_impact :=
       if gt noInterestRate (ofZ 70) then "Medium"
       else if gt noInterestRate (ofZ 40) then "Low" else "Very Low";
     rf_recommendation :=
       if gt noInterestRate (ofZ 70)
       then "Consider implementing interest rates to improve returns"
       else if gt noInterestRate (ofZ 40)
       then "Review interest rate strategy for better profitability"
       else "Good balance of interest-bearing loans" |}.

Definition paymentRateOf (loans : list LoanModel) : number :=
  percentOf (len (filter isPaid loans)) (len loans).

Definition velocityFactor (loans : list LoanModel) : RiskFactor :=
  let paymentRate := paymentRateOf loans in
  let velocityScore :=
    if lt paymentRate (ofZ 50) then ofZ 70
    else if lt paymentRate (ofZ 70) then ofZ 40 else ofZ 20 in
  {| rf_name := "Payment Velocity";
     rf_score := velocityScore;
     rf_impact :=
       if lt paymentRate (ofZ 50) then "High"
       else if lt paymentRate (ofZ 70) then "Medium" else "Low";
     rf_recommendation :=
       if lt paymentRate (ofZ 50)
       then "Improve collection processes and borrower communication"
       else if lt paymentRate (ofZ 70)
       then "Enhance payment reminders and follow-up procedures"
       else "Excellent payment collection rate" |}.

Definition sizeFactor (loans : list LoanModel) : RiskFactor :=
  let portfolioSize := len loans in
  let sizeScore :=
    if lt portfolioSize (ofZ 5) then ofZ 40
    else if lt portfolioSize (ofZ 10) then ofZ 20 else ofZ 10 in
  {| rf_name := "Portfolio Size";
     rf_score := sizeScore;
     rf_impact :=
       if lt portfolioSize (ofZ 5) then "Medium"
       else if lt portfolioSize (ofZ 10) then "Low" else "Very Low";
     rf_recommendation :=
       if lt portfolioSize (ofZ 5)
       then "Consider expanding portfolio for better risk distribution"
       else if lt portfolioSize (ofZ 10)
       then "Good portfolio size, continue steady growth"
       else "Well-diversified portfolio size" |}.

Definition generateRiskAssessment (loans : list LoanModel) : RiskAssessment :=
  let factors :=
    [overdueFactor loans; concentrationFactor loans; interestFactor loans;
     velocityFactor loans; sizeFactor loans] in
  let totalRiskScore := weightedSum factors in
  let summary : string :=
    if ge totalRiskScore (ofZ 70) then
      "High risk portfolio requiring immediate attention. Focus on overdue collections and risk mitigation strategies."%string
    else if ge totalRiskScore (ofZ 40) then
      "Moderate risk portfolio. Monitor key metrics closely and implement preventive measures."%string
    else
      "Low risk portfolio with good fundamentals. Maintain current practices and continue monitoring."%string
  in
  {| overallRisk := round totalRiskScore;
     factors := factors;
     summary := summary |}.

End Risk.

(** *** Display of a percentage ([services/display.service.ts])

    [x.toFixed(1)]: the closest number with one decimal, a tie going to
    the larger one (the exponent form used from 1e21 on is not modelled). *)

Definition decimal (n : Z) : string :=
  DecimalString.NilZero.string_of_uint (N.to_uint (Z.to_N n)).

Definition toFixed1 (x : number) : string :=
  match x with
  | NaN => "NaN"
  | PosInf => "Infinity"
  | NegInf => "-Infinity"
  | Num q =>
      let negative := match Qcsign q with Lt => true | _ => false end in
      let a := if negative then (- q)%Qc else q in
      let n := Qfloor (a * Q2Qc (10 # 1) + Q2Qc (1 # 2))%Qc in
      ((if negative then "-" else "") ++ decimal (n / 10) ++ "." ++ decimal (n mod 10))%string
  end.

(** [`${rate.toFixed(1)}%`] *)
Definition showPercent (rate : number) : string := (toFixed1 rate ++ "%")%string.

(** ** The specification's reading of the derived values *)

Module Spec.

(** Section 3: [Paid] is [isPaid]; [Overdue] is unpaid with the repayment
    date in the past; [Pending] is unpaid otherwise. *)
Definition hasStatus (parse : string -> Date.time) (now : Z) (l : Loan) (s : Status) : Prop :=
  match s with
  | Paid => isPaid l = true
  | Overdue => isPaid l = false /\ Date.lt (parse (repaymentDate l)) (Some now) = true
  | Pending => isPaid l = false /\ Date.lt (parse (repaymentDate l)) (Some now) = false
  end.

Definition statusEqb (a b : Status) : bool :=
  match a, b with
  | Paid, Paid | Overdue, Overdue | Pending, Pending => true
  | _, _ => false
  end.



(** Section 4.3: the five factor scores. *)
Definition overdueScore (overdueRate : number) : number :=
  min2 (mul overdueRate (ofZ 2)) (ofZ 100).

Definition concentrationScore (rate : number) : number :=
  if gt rate (ofZ 50) then ofZ 80 else if gt rate (ofZ 30) then ofZ 50 else ofZ 20.

Definition interestScore (noInterestRate : number) : number :=
  if gt noInterestRate (ofZ 70) then ofZ 60
  else if gt noInterestRate (ofZ 40) then ofZ 30 else ofZ 10.

Definition velocityScore (paymentRate : number) : number :=
  if lt paymentRate (ofZ 50) then ofZ 70
  else if lt paymentRate (ofZ 70) then ofZ 40 else ofZ 20.

Definition sizeScore (count : number) : number :=
  if lt count (ofZ 5) then ofZ 40 else if lt count (ofZ 10) then ofZ 20 else ofZ 10.

(** The weighted sum with the weights 0.30, 0.25, 0.15, 0.20, 0.10. *)
Definition weighted (s1 s2 s3 s4 s5 : number) : number :=
  add (add (add (add (mul s1 (ofQ (30 # 100))) (mul s2 (ofQ (25 # 100))))
                (mul s3 (ofQ (15 # 100))))
           (mul s4 (ofQ (20 # 100))))
      (mul s5 (ofQ (10 # 100))).

(** The banding: 70 and above High, 40 and above Moderate, else Low. *)
Definition band (score : number) : Summary :=
  if ge score (ofZ 70) then HighRisk
  else if ge score (ofZ 40) then ModerateRisk
  else LowRisk.



(** Section 4.2: the loans of one lender, by exact match of the name. *)
Definition groupOf (name : string) (loans : list Loan) : list Loan :=
  filter (fun l => String.eqb (lenderName l) name) loans.

(** A loan whose amount and interest rate (when it has one) are finite
    numbers. *)
Definition finiteLoan (l : Loan) : bool :=
  isFinite (amount l) &&
  match interestRate l with
  | Some r => isFinite r
  | None => true
  end.




(** Section 4.2: the payment rate and the overdue rate of a lender, the
    paid and the overdue loans out of [total] loans, in percent. *)
Definition rate (count total : nat) : number :=
  Num (Q2Qc (inject_Z (100 * Z.of_nat count) / inject_Z (Z.of_nat total))).

End Spec.

(** The record a lender holds once the loans of [group] went through
    [recordLoan], in order. *)
Definition dataOf (parse : string -> Date.time) (now : Z) (group : list LoanModel)
  : LenderData :=
  fold_left (fun data loan => recordLoan parse now loan data) group emptyLenderData.

(** What the grouping map holds under [name] after the loans [loans]. *)
Definition groupEntry (parse : string -> Date.time) (now : Z) (name : string)
    (loans : list LoanModel) : option LenderData :=
  match Spec.groupOf name loans with
  | [] => None
  | group => Some (dataOf parse now group)
  end.



(** ** More of [services/analytics.service.ts] *)

Record InterestAnalysis : Type := mkInterestAnalysis {
  ia_totalInterest : number;
  ia_interestPercentage : number;
  ia_averageRate : number;
  ia_highestRate : number;
  ia_lowestRate : number;
  ia_loansWithInterest : number;
  ia_interestLoanPercentage : number;
  ia_potentialRevenue : number
}.

(** [loans.reduce((sum, loan) => sum + loan.amount, 0)] *)
Definition sumAmounts (loans : list LoanModel) : number :=
  fold_left (fun sum loan => add sum (amount loan)) loans zero.

(** [loan.interestRate!]: the rate as it is, [undefined] acting as [NaN]
    in the arithmetic that follows. *)
Definition rateOf (loan : LoanModel) : number :=
  match interestRate loan with
  | Some r => r
  | None => NaN
  end.

(** [loan.interestRate || 0] *)
Definition rateOrZero (loan : LoanModel) : number :=
  match hasInterest loan with
  | Some r => r
  | None => zero
  end.

Definition generateInterestAnalysis (loans : list LoanModel) : InterestAnalysis :=
  let loansWithInterest := filter withInterest loans in
  let totalInterest := sumInterest loans in
  let totalPrincipal := sumAmounts loans in
  let interestPercentage :=
    if gt totalPrincipal zero then mul (div totalInterest totalPrincipal) (ofZ 100)
    else zero in
  let interestRates := map rateOf loansWithInterest in
  let averageRate :=
    if gt (len interestRates) zero
    then div (fold_left (fun sum rate => add sum rate) interestRates zero) (len interestRates)
    else zero in
  let highestRate := if gt (len interestRates) zero then maxOf interestRates else zero in
  let lowestRate := if gt (len interestRates) zero then minOf interestRates else zero in
  let interestLoanPercentage := percentOf (len loansWithInterest) (len loans) in
  let potentialRevenue := sumTotals loans in
  {| ia_totalInterest := totalInterest;
     ia_interestPercentage := interestPercentage;
     ia_averageRate := averageRate;
     ia_highestRate := highestRate;
     ia_lowestRate := lowestRate;
     ia_loansWithInterest := len loansWithInterest;
     ia_interestLoanPercentage := interestLoanPercentage;
     ia_potentialRevenue := potentialRevenue |}.

Record PortfolioMetrics : Type := mkPortfolioMetrics {
  pm_totalValue : number;
  pm_weightedAverageRate : number;
  pm_portfolioYield : number;
  pm_defaultRate : number;
  pm_recoveryRate : number
}.

(** [x === 0] *)
Definition isZero (x : number) : bool :=
  match x with
  | Num q => match Qcsign q with Eq => true | _ => false end
  | _ => false
  end.

(** [calculatePercentageChange] *)
Definition calculatePercentageChange (current previous : number) : number :=
  if isZero previous then (if gt current zero then ofZ 100 else zero)
  else mul (div (sub current previous) previous) (ofZ 100).

Record PeriodSummary : Type := mkPeriodSummary {
  ps_loans : number;
  ps_metrics : PortfolioMetrics
}.

Record Comparison : Type := mkComparison {
  volumeChange : number;
  valueChange : number;
  yieldChange : number;
  defaultRateChange : number;
  recoveryRateChange : number
}.

Record PerformanceComparison : Type := mkPerformanceComparison {
  currentPeriod : PeriodSummary;
  previousPeriod : PeriodSummary;
  comparison : Comparison
}.

Section Analytics3.

Variable parse : string -> Date.time.
Variable now : Z.

Definition calculatePortfolioMetrics (loans : list LoanModel) : PortfolioMetrics :=
  let totalValue := sumTotals loans in
  let totalPrincipal := sumAmounts loans in
  let weightedRate :=
    if gt totalPrincipal zero then
      fold_left
        (fun sum loan =>
           let weight := div (amount loan) totalPrincipal in
           add sum (mul weight (rateOrZero loan)))
        loans zero
    else zero in
  let totalInterest := sub totalValue totalPrincipal in
  let portfolioYield :=
    if gt totalPrincipal zero then mul (div totalInterest totalPrincipal) (ofZ 100)
    else zero in
  let overdueLoans := len (filter (isOverdue parse now) loans) in
  let defaultRate := percentOf overdueLoans (len loans) in
  let paidLoans := len (filter isPaid loans) in
  let recoveryRate := percentOf paidLoans (len loans) in
  {| pm_totalValue := totalValue;
     pm_weightedAverageRate := weightedRate;
     pm_portfolioYield := portfolioYield;
     pm_defaultRate := defaultRate;
     pm_recoveryRate := recoveryRate |}.

(** [new Date(now.getTime() - days * 24 * 60 * 60 * 1000)] *)
Definition daysAgo (days : Z) : Z := now - days * 24 * 60 * 60 * 1000.

(** The loans of the last three months, by repayment date. *)
Definition currentLoansOf (loans : list LoanModel) : list LoanModel :=
  let threeMonthsAgo := daysAgo 90 in
  filter
    (fun loan =>
       let repaymentDate := parse (repaymentDate loan) in
       Date.ge repaymentDate (Some threeMonthsAgo))
    loans.

(** The loans of the three months before those. *)
Definition previousLoansOf (loans : list LoanModel) : list LoanModel :=
  let threeMonthsAgo := daysAgo 90 in
  let sixMonthsAgo := daysAgo 180 in
  filter
    (fun loan =>
       let repaymentDate := parse (repaymentDate loan) in
       Date.ge repaymentDate (Some sixMonthsAgo) &&
       Date.lt repaymentDate (Some threeMonthsAgo))
    loans.

Definition generatePerformanceComparison (loans : list LoanModel) : PerformanceComparison :=
  let currentLoans := currentLoansOf loans in
  let previousLoans := previousLoansOf loans in
  let currentMetrics := calculatePortfolioMetrics currentLoans in
  let previousMetrics := calculatePortfolioMetrics previousLoans in
  let comparison :=
    {| volumeChange := calculatePercentageChange (len currentLoans) (len previousLoans);
       valueChange :=
         calculatePercentageChange (pm_totalValue currentMetrics) (pm_totalValue previousMetrics);
       yieldChange :=
         calculatePercentageChange (pm_portfolioYield currentMetrics)
           (pm_portfolioYield previousMetrics);
       defaultRateChange :=
         calculatePercentageChange (pm_defaultRate currentMetrics)
           (pm_defaultRate previousMetrics);
       recoveryRateChange :=
         calculatePercentageChange (pm_recoveryRate currentMetrics)
           (pm_recoveryRate previousMetrics) |} in
  {| currentPeriod := {| ps_loans := len currentLoans; ps_metrics := currentMetrics |};
     previousPeriod := {| ps_loans := len previousLoans; ps_metrics := previousMetrics |};
     comparison := comparison |}.

End Analytics3.


(** The value of a finite number (0 for the others), and the exact sum of
    the values of a list of rationals. *)
Definition valueOf (x : number) : Qc :=
  match x with
  | Num q => q
  | _ => Q2Qc 0
  end.

Definition Qcsum (qs : list Qc) : Qc := fold_right Qcplus (Q2Qc 0) qs.

(** [xs.reduce((sum, x) => sum + x, 0)] *)
Definition sumOf (xs : list number) : number := fold_left add xs zero.

(** [k] out of [n] as a percentage. *)
Definition pctQ (k n : nat) : Qc :=
  (Q2Qc (inject_Z (Z.of_nat k)) / Q2Qc (inject_Z (Z.of_nat n)) * Q2Qc (inject_Z 100))%Qc.

(** The total of a loan and its interest as rationals. *)
Definition totalQ (l : LoanModel) : Qc := valueOf (calculateTotalWithInterest l).

(** ** [services/storage.service.ts] and [services/loan.service.ts]

    The loans file is modelled by what [JSON.parse] reads from it: the
    list of loans, or nothing when the file is missing or unreadable.
    Writing a list and reading it back gives the list (the numbers of a
    stored loan are finite). *)


















(** ** [utils/validation.utils.ts] *)

Definition isValidAmount (amount : number) : bool := gt amount zero.

(** ** [controllers/loan.controller.ts]: [filterLoans] *)

Inductive LoanFilter : Type :=
| FilterPaid | FilterPending | FilterOverdue | FilterThisWeek | FilterThisMonth
| FilterOther.

(** [a <= b] on two dates. *)
Definition Date_le (a b : Date.time) : bool := Date.ge b a.

Section Controller.

Variable parse : string -> Date.time.
Variable now : Z.

Definition filterLoans (loans : list LoanModel) (filter_ : LoanFilter) : list LoanModel :=
  let oneWeek := now + 7 * 24 * 60 * 60 * 1000 in
  let oneMonth := now + 30 * 24 * 60 * 60 * 1000 in
  match filter_ with
  | FilterPaid => filter isPaid loans
  | FilterPending =>
      filter (fun loan => negb (isPaid loan) && negb (isOverdue parse now loan)) loans
  | FilterOverdue => filter (isOverdue parse now) loans
  | FilterThisWeek =>
      filter
        (fun loan =>
           let dueDate := parse (repaymentDate loan) in
           Date_le dueDate (Some oneWeek) && Date.ge dueDate (Some now) && negb (isPaid loan))
        loans
  | FilterThisMonth =>
      filter
        (fun loan =>
           let dueDate := parse (repaymentDate loan) in
           Date_le dueDate (Some oneMonth) && Date.ge dueDate (Some now) && negb (isPaid loan))
        loans
  | FilterOther => loans
  end.

End Controller.

(** ** [services/export.service.ts]: [filterLoans] and [sortLoans] *)

Inductive SortKey : Type := SortDate | SortAmount | SortLender | SortStatus | SortUnknown.
Inductive SortOrder : Type := Asc | Desc.

Record ExportOptions : Type := mkExportOptions {
  filterPaid : option bool;
  filterOverdue : option bool;
  sortBy_ : option SortKey;        (* [sortBy?], a key outside the four cases being [SortUnknown] *)
  sortOrder : option SortOrder
}.

Section ExportService.

Variable parse : string -> Date.time.
Variable now : Z.

(** [s.toLowerCase()] and the comparison [s < t] of two strings. *)
Variable toLowerCase : string -> string.
Variable stringLt : string -> string -> bool.

Definition exportFilterLoans (loans : list LoanModel) (options : ExportOptions)
  : list LoanModel :=
  let filtered := loans in
  let filtered :=
    match filterPaid options with
    | Some wanted => filter (fun loan => Bool.eqb (isPaid loan) wanted) filtered
    | None => filtered
    end in
  let filtered :=
    match filterOverdue options with
    | Some wanted => filter (fun loan => Bool.eqb (isOverdue parse now loan) wanted) filtered
    | None => filtered
    end in
  filtered.

(** The result of the comparator once [aValue] and [bValue] are known to
    be below or above each other. *)
Definition orderResult (below above : bool) (options : ExportOptions) : number :=
  let desc := match sortOrder options with Some Desc => true | _ => false end in
  if below then (if desc then ofZ 1 else ofZ (-1))
  else if above then (if desc then ofZ (-1) else ofZ 1)
  else zero.

(** The comparator of [sortLoans] for the key ['amount']. *)
Definition compareByAmount (options : ExportOptions) (a b : LoanModel) : number :=
  let aValue := calculateTotalWithInterest a in
  let bValue := calculateTotalWithInterest b in
  orderResult (lt aValue bValue) (gt aValue bValue) options.

(** The comparator for the key ['status']: paid 0, pending 1, overdue 2. *)
Definition statusRank (loan : LoanModel) : number :=
  if isPaid loan then ofZ 0 else if isOverdue parse now loan then ofZ 2 else ofZ 1.

Definition compareByStatus (options : ExportOptions) (a b : LoanModel) : number :=
  let aValue := statusRank a in
  let bValue := statusRank b in
  orderResult (lt aValue bValue) (gt aValue bValue) options.

(** The comparator for the key ['date']: two [Date] objects compared
    with [<] and [>]. *)
Definition compareByDate (options : ExportOptions) (a b : LoanModel) : number :=
  let aValue := parse (repaymentDate a) in
  let bValue := parse (repaymentDate b) in
  orderResult (Date.lt aValue bValue) (Date.gt aValue bValue) options.

Definition compareByLender (options : ExportOptions) (a b : LoanModel) : number :=
  let aValue := toLowerCase (lenderName a) in
  let bValue := toLowerCase (lenderName b) in
  orderResult (stringLt aValue bValue) (stringLt bValue aValue) options.

Definition sortLoans (loans : list LoanModel) (options : ExportOptions) : list LoanModel :=
  match sortBy_ options with
  | None => loans
  | Some key =>
      sortBy
        (fun a b =>
           match key with
           | SortDate => compareByDate options a b
           | SortAmount => compareByAmount options a b
           | SortLender => compareByLender options a b
           | SortStatus => compareByStatus options a b
           | SortUnknown => zero
           end)
        loans
  end.

(** [calculateTotalAmount] *)
Definition calculateTotalAmount (loans : list LoanModel) : number := sumTotals loans.

End ExportService.

(** ** [controllers/loan.controller.ts]: [sortLoans] *)

(** [date.getTime()] *)
Definition getTime (d : Date.time) : number :=
  match d with
  | Some t => ofZ t
  | None => NaN
  end.

Inductive LoanSort : Type :=
| SortDueDate | SortAmountDesc | SortAmountAsc | SortLenderName | SortByStatus | SortOther.

Module Controller.

Section Sorting.

Variable parse : string -> Date.time.
Variable now : Z.

(** [s.localeCompare(t)] *)
Variable localeCompare : string -> string -> number.

Definition statusWord (loan : LoanModel) : string :=
  if isPaid loan then "paid" else if isOverdue parse now loan then "overdue" else "pending".

(** The array is sorted in place and returned; the model returns the
    sorted list. *)
Definition sortLoans (loans : list LoanModel) (key : LoanSort) : list LoanModel :=
  match key with
  | SortDueDate =>
      sortBy
        (fun a b =>
           sub (getTime (parse (repaymentDate a))) (getTime (parse (repaymentDate b))))
        loans
  | SortAmountDesc =>
      sortBy
        (fun a b => sub (calculateTotalWithInterest b) (calculateTotalWithInterest a))
        loans
  | SortAmountAsc =>
      sortBy
        (fun a b => sub (calculateTotalWithInterest a) (calculateTotalWithInterest b))
        loans
  | SortLenderName =>
      sortBy (fun a b => localeCompare (lenderName a) (lenderName b)) loans
  | SortByStatus =>
      sortBy (fun a b => localeCompare (statusWord a) (statusWord b)) loans
  | SortOther => loans
  end.

End Sorting.

End Controller.

(** ** [controllers/loan.controller.ts]: [searchLoansWithCriteria] *)

Inductive SearchParams : Type :=
| SearchLenderName (value : string)
| SearchPhoneNumber (value : string)
| SearchAmountRange (min max : number)
| SearchDateRange (start end_ : string)
| SearchStatus (value : string)
| SearchOther.

Section Search.

Variable parse : string -> Date.time.
Variable now : Z.

(** [s.toLowerCase()] and [s.includes(t)] *)
Variable toLowerCase : string -> string.
Variable includes : string -> string -> bool.

Definition searchLoansWithCriteria (loans : list LoanModel) (searchParams : SearchParams)
  : list LoanModel :=
  match searchParams with
  | SearchLenderName value =>
      filter (fun loan => includes (toLowerCase (lenderName loan)) (toLowerCase value)) loans
  | SearchPhoneNumber value =>
      filter (fun loan => includes (phoneNumber loan) value) loans
  | SearchAmountRange min max =>
      filter
        (fun loan =>
           let amount := calculateTotalWithInterest loan in
           ge amount min && le amount max)
        loans
  | SearchDateRange start end_ =>
      filter
        (fun loan =>
           let dueDate := parse (repaymentDate loan) in
           let startDate := parse start in
           let endDate := parse end_ in
           Date.ge dueDate startDate && Date_le dueDate endDate)
        loans
  | SearchStatus value =>
      if String.eqb value "paid" then filter isPaid loans
      else if String.eqb value "overdue" then filter (isOverdue parse now) loans
      else if String.eqb value "pending"
      then filter (fun loan => negb (isPaid loan) && negb (isOverdue parse now loan)) loans
      else loans
  | SearchOther => loans
  end.

End Search.

(** ** [menus/add-loan.menu.ts]

    The answers of the prompt; [a_interestRate] is the answer to the
    last question, which is asked only when [a_hasInterest] holds.  A
    question is asked again until its [validate] function returns
    [true]. *)


Section AddLoanMenu.

Variable parse : string -> Date.time.
Variable now : Z.

(** [s.trim()] and the test of [isValidPhoneNumber]. *)
Variable trim : string -> string.
Variable isValidPhoneNumber : string -> bool.




End AddLoanMenu.

(** ** [services/analytics.service.ts]: the months

    The calendar arithmetic of [Date] is not modelled: the key
    ["YYYY-MM"] that [toISOString().slice(0, 7)] gives after
    [setMonth(getMonth() - i)] on today's date, and the names that
    [toLocaleDateString] gives, are parameters. *)

Record MonthData : Type := mkMonthData {
  md_newLoans : number;
  md_totalAmount : number;
  md_paidLoans : number;
  md_overdueLoans : number
}.

Record MonthlyBreakdown : Type := mkMonthlyBreakdown {
  mb_month : string;
  mb_newLoans : number;
  mb_totalAmount : number;
  mb_paidLoans : number;
  mb_overdueLoans : number;
  mb_averageAmount : number
}.

Definition emptyMonth : MonthData :=
  {| md_newLoans := zero; md_totalAmount := zero; md_paidLoans := zero;
     md_overdueLoans := zero |}.

(** [loan.repaymentDate.slice(0, 7)] *)
Definition repaymentMonthOf (loan : LoanModel) : string :=
  substring 0 7 (repaymentDate loan).

Section Months.

Variable parse : string -> Date.time.
Variable now : Z.

Variable monthKeyAgo : nat -> string.

(** The name of the month of key [month]. *)
Variable monthNameOf : string -> string.

(** The first loop of [generateMonthlyBreakdown], for [i] from 11 down
    to 0. *)
Definition lastMonths : list string * smap MonthData :=
  fold_left
    (fun (state : list string * smap MonthData) (i : nat) =>
       let (months, monthlyData) := state in
       let monthKey := monthKeyAgo i in
       (months ++ [monthKey], mapSet monthKey emptyMonth monthlyData))
    (rev (seq 0 12)) ([], []).

Definition countLoan (loan : LoanModel) (data : MonthData) : MonthData :=
  {| md_newLoans := add (md_newLoans data) (ofZ 1);
     md_totalAmount := add (md_totalAmount data) (calculateTotalWithInterest loan);
     md_paidLoans :=
       if isPaid loan then add (md_paidLoans data) (ofZ 1) else md_paidLoans data;
     md_overdueLoans :=
       if isPaid loan then md_overdueLoans data
       else if isOverdue parse now loan then add (md_overdueLoans data) (ofZ 1)
       else md_overdueLoans data |}.

Definition monthStep (monthlyData : smap MonthData) (loan : LoanModel) : smap MonthData :=
  let repaymentMonth := repaymentMonthOf loan in
  if mapHas repaymentMonth monthlyData
  then mapUpdate (countLoan loan) repaymentMonth monthlyData
  else monthlyData.

Definition breakdownEntry (month : string) (data : MonthData) : MonthlyBreakdown :=
  {| mb_month := monthNameOf month;
     mb_newLoans := md_newLoans data;
     mb_totalAmount := md_totalAmount data;
     mb_paidLoans := md_paidLoans data;
     mb_overdueLoans := md_overdueLoans data;
     mb_averageAmount :=
       if gt (md_newLoans data) zero
       then div (md_totalAmount data) (md_newLoans data) else zero |}.

(** [months.map(...)]; [None] stands for the [TypeError] that reading a
    field of [monthlyData.get(month)!] raises when the key is missing. *)
Fixpoint breakdownOf (monthlyData : smap MonthData) (months : list string)
  : option (list MonthlyBreakdown) :=
  match months with
  | [] => Some []
  | month :: months' =>
      match mapGet month monthlyData with
      | Some data =>
          match breakdownOf monthlyData months' with
          | Some rest => Some (breakdownEntry month data :: rest)
          | None => None
          end
      | None => None
      end
  end.

Definition generateMonthlyBreakdown (loans : list LoanModel)
  : option (list MonthlyBreakdown) :=
  let (months, monthlyData) := lastMonths in
  let monthlyData := fold_left monthStep loans monthlyData in
  breakdownOf monthlyData months.

End Months.

(** ** [services/validation.service.ts]: amounts and interest rates *)

Record ValidationResult : Type := mkValidationResult {
  vr_isValid : bool;
  vr_errors : list string;
  vr_warnings : list string
}.

Record LoanValidationOptions : Type := mkLoanValidationOptions {
  strictMode : option bool;
  allowFutureDates : option bool;
  maxAmount : option number;
  minAmount : option number;
  requiredFields : option (list string)
}.

(** [options = {}] *)
Definition noOptions : LoanValidationOptions :=
  {| strictMode := None; allowFutureDates := None; maxAmount := None;
     minAmount := None; requiredFields := None |}.

(** [x || fallback] for an optional number [x]. *)
Definition orNumber (x : option number) (fallback : number) : number :=
  match x with
  | Some v => if truthy v then v else fallback
  | None => fallback
  end.

(** [x === y] on numbers. *)
Definition strictEq (x y : number) : bool :=
  match cmp x y with Some Eq => true | _ => false end.

(** [x % 1]: what is left of [x] after its integer part, with the sign
    of [x]; [NaN] for the infinities. *)
Definition remOne (x : number) : number :=
  match x with
  | Num q =>
      let whole := match Qcsign q with Lt => Qceiling q | _ => Qfloor q end in
      Num (q - Q2Qc (inject_Z whole))
  | _ => NaN
  end.

(** [errors.push(message)] *)
Definition push (messages : list string) (message : string) : list string :=
  messages ++ [message].

Section Validation.

(** [x.toLocaleString()], the test [x.toString().match(/^(\d)\1+$/)]
    and [rate % 0.01] in binary floating point. *)
Variable toLocaleString : number -> string.
Variable repeatedDigits : number -> bool.
Variable remHundredth : number -> number.

Definition validateAmount (amount : number) (options : LoanValidationOptions)
  : ValidationResult :=
  let errors : list string := [] in
  let warnings : list string := [] in
  if isNaN amount then
    {| vr_isValid := false;
       vr_errors := push errors "Amount must be a valid number";
       vr_warnings := warnings |}
  else
    let errors :=
      if le amount zero then push errors "Amount must be greater than zero" else errors in
    let minAmount := orNumber (minAmount options) (ofZ 100) in
    let maxAmount := orNumber (maxAmount options) (ofZ 10000000) in
    let errors :=
      if lt amount minAmount
      then push errors ("Amount must be at least ₦" ++ toLocaleString minAmount)
      else errors in
    let errors :=
      if gt amount maxAmount
      then push errors ("Amount cannot exceed ₦" ++ toLocaleString maxAmount)
      else errors in
    let warnings :=
      if negb (strictEq (remOne amount) zero)
      then push warnings "Amount contains decimal places - will be rounded"
      else warnings in
    let warnings :=
      if lt amount (ofZ 1000)
      then push warnings "Very small loan amount - consider if this is correct"
      else warnings in
    let warnings :=
      if gt amount (ofZ 1000000)
      then push warnings "Large loan amount - ensure this is accurate"
      else warnings in
    let warnings :=
      if repeatedDigits amount
      then push warnings "Amount appears to be repeated digits (e.g., 1111)"
      else warnings in
    {| vr_isValid := Nat.eqb (List.length errors) 0;
       vr_errors := errors;
       vr_warnings := warnings |}.

Definition validateInterestRate (rate : number) : ValidationResult :=
  let errors : list string := [] in
  let warnings : list string := [] in
  if isNaN rate then
    {| vr_isValid := false;
       vr_errors := push errors "Interest rate must be a valid number";
       vr_warnings := warnings |}
  else
    let errors :=
      if lt rate zero then push errors "Interest rate cannot be negative" else errors in
    let errors :=
      if gt rate (ofZ 100) then push errors "Interest rate cannot exceed 100%" else errors in
    let warnings :=
      if strictEq rate zero
      then push warnings "Zero interest rate - confirm this is intentional"
      else warnings in
    let warnings :=
      if gt rate (ofZ 50)
      then push warnings "Very high interest rate - ensure this is correct"
      else warnings in
    let warnings :=
      if lt rate (ofZ 1) && gt rate zero
      then push warnings "Very low interest rate - confirm this is correct"
      else warnings in
    let warnings :=
      if negb (strictEq (remHundredth rate) zero)
      then push warnings "Interest rate has more than 2 decimal places"
      else warnings in
    {| vr_isValid := Nat.eqb (List.length errors) 0;
       vr_errors := errors;
       vr_warnings := warnings |}.

End Validation.

(** The loans whose repayment date starts with the key [month], and the
    record of a month once the loans of [ofMonth] went through
    [countLoan], in order. *)
Definition loansOfMonth (month : string) (loans : list LoanModel) : list LoanModel :=
  filter (fun loan => String.eqb (repaymentMonthOf loan) month) loans.

Definition monthDataOf (parse : string -> Date.time) (now : Z) (ofMonth : list LoanModel)
  : MonthData :=
  fold_left (fun data loan => countLoan parse now loan data) ofMonth emptyMonth.

(** ** Double precision

    [number] above has exact arithmetic.  Where a property depends on
    the rounding of the operations, the code is read with the numbers
    of IEEE 754 binary64, which is what a TypeScript [number] is: the
    operations are those of the specification of binary floating point
    of the Standard Library, at precision 53 and maximal exponent
    1024, rounding to nearest, ties to even. *)

Module Binary64.

Definition float : Type := SpecFloat.spec_float.

Definition prec : Z := 53.
Definition emax : Z := 1024.

(** An integer literal. *)
Definition ofZ (z : Z) : float := SpecFloat.binary_normalize prec emax z 0 false.

Definition zero : float := SpecFloat.S754_zero false.
Definition infinity : float := SpecFloat.S754_infinity false.

Definition add : float -> float -> float := SpecFloat.SFadd prec emax.
Definition sub : float -> float -> float := SpecFloat.SFsub prec emax.
Definition mul : float -> float -> float := SpecFloat.SFmul prec emax.
Definition div : float -> float -> float := SpecFloat.SFdiv prec emax.

Definition eqb : float -> float -> bool := SpecFloat.SFeqb.
Definition lt : float -> float -> bool := SpecFloat.SFltb.
Definition gt (x y : float) : bool := lt y x.
Definition le : float -> float -> bool := SpecFloat.SFleb.
Definition ge (x y : float) : bool := le y x.

Definition isNaN (x : float) : bool :=
  match x with SpecFloat.S754_nan => true | _ => false end.

(** [if (x)]: the two zeros and [NaN] are falsy. *)
Definition truthy (x : float) : bool :=
  match x with
  | SpecFloat.S754_zero _ | SpecFloat.S754_nan => false
  | _ => true
  end.

(** The rational that a finite number is. *)
Definition toQ (x : float) : option Q :=
  match x with
  | SpecFloat.S754_zero _ => Some 0%Q
  | SpecFloat.S754_finite s m e =>
      let v := match e with
               | Zneg p => (Zpos m # Pos.pow 2 p)%Q
               | _ => inject_Z (Zpos m * 2 ^ e)
               end in
      Some (if s then Qopp v else v)
  | _ => None
  end.

(** [LoanModel.calculateTotalWithInterest], which reads the fields
    [amount] and [interestRate] of the loan. *)
Definition calculateTotalWithInterest (amount : float) (interestRate : option float)
  : float :=
  match interestRate with
  | Some r =>
      if truthy r then
        let interest := div (mul amount r) (ofZ 100) in
        add amount interest
      else amount
  | None => amount
  end.

End Binary64.


(** ** Sample data

    The scenario of the specification, read at noon UTC on 2025-06-15:
    a loan due the day before, a loan due the day after and a paid loan
    due a month before. *)

Module Sample.

Definition now : Z := 1749988800000.

Definition dueYesterday : LoanModel :=
  {| id := "loan-1"; lenderName := "Ada"; phoneNumber := "+2348011111111";
     amount := ofZ 50000; repaymentDate := "2025-06-14";
     interestRate := Some (ofZ 10); isPaid := false |}.

Definition dueTomorrow : LoanModel :=
  {| id := "loan-2"; lenderName := "Bola"; phoneNumber := "+2348022222222";
     amount := ofZ 25000; repaymentDate := "2025-06-16";
     interestRate := Some (ofZ 5); isPaid := false |}.

Definition paidLastMonth : LoanModel :=
  {| id := "loan-3"; lenderName := "Chidi"; phoneNumber := "+2348033333333";
     amount := ofZ 75000; repaymentDate := "2025-05-15";
     interestRate := None; isPaid := true |}.

Definition loans : list LoanModel := [dueYesterday; dueTomorrow; paidLastMonth].

(** Four overdue loans of 100 without interest, two of them from one
    lender. *)
Definition overdueOf (lender : string) : LoanModel :=
  {| id := "loan"; lenderName := lender; phoneNumber := "+2348044444444";
     amount := ofZ 100; repaymentDate := "2025-06-14";
     interestRate := None; isPaid := false |}.

Definition fourOverdue : list LoanModel :=
  [overdueOf "Ada"; overdueOf "Ada"; overdueOf "Bola"; overdueOf "Chidi"].

(** One lender with three loans, two of them overdue. *)
Definition acme : list LoanModel :=
  [overdueOf "Acme"; overdueOf "Acme";
   {| id := "loan-9"; lenderName := "Acme"; phoneNumber := "+2348055555555";
      amount := ofZ 100; repaymentDate := "2025-06-16";
      interestRate := None; isPaid := true |}].




End Sample.

(** * Properties *)

(** ** Arithmetic of [number] *)

Local Open Scope Qc_scope.


Lemma Qcsign_Gt (q : Qc) : Qcsign q = Gt <-> Q2Qc 0 < q.
Proof. unfold Qcsign. symmetry. apply Qcgt_alt. Qed.


Lemma ofZ_inj_add (a b : Z) : add (ofZ a) (ofZ b) = ofZ (a + b).
Proof.
  unfold ofZ, add. f_equal. apply Qc_is_canon.
  unfold Qcplus, Q2Qc; cbn [this]. rewrite !Qred_correct.
  rewrite inject_Z_plus. reflexivity.
Qed.

Lemma ofZ_inj_sub (a b : Z) : sub (ofZ a) (ofZ b) = ofZ (a - b).
Proof.
  unfold ofZ, sub, add, neg. f_equal. apply Qc_is_canon.
  unfold Qcplus, Qcopp, Q2Qc; cbn [this]. rewrite !Qred_correct.
  unfold Z.sub. rewrite inject_Z_plus, inject_Z_opp. reflexivity.
Qed.

Lemma ofNat_succ (n : nat) : add (ofNat n) (ofZ 1) = ofNat (S n).
Proof. unfold ofNat. rewrite ofZ_inj_add. f_equal. lia. Qed.

Lemma add_zero_l (x : number) : add zero x = x.
Proof.
  destruct x; try reflexivity.
  unfold zero, ofZ, add. f_equal. apply Qcplus_0_l.
Qed.

Lemma cmp_ofZ (a b : Z) : cmp (ofZ a) (ofZ b) = Some (a ?= b)%Z.
Proof.
  unfold cmp, ofZ. f_equal. unfold Qccompare, Q2Qc; cbn [this].
  rewrite <- Qred_compare. unfold Qcompare, inject_Z; cbn [Qnum Qden].
  change (Z.pos 1) with 1%Z. now rewrite !Z.mul_1_r.
Qed.

Lemma lt_ofZ (a b : Z) : lt (ofZ a) (ofZ b) = (a <? b)%Z.
Proof. unfold lt. rewrite cmp_ofZ. unfold Z.ltb. now destruct (a ?= b)%Z. Qed.

Lemma gt_ofZ (a b : Z) : gt (ofZ a) (ofZ b) = (b <? a)%Z.
Proof. unfold gt. apply lt_ofZ. Qed.

Lemma lt_Num (a b : Qc) : lt (Num a) (Num b) = true <-> a < b.
Proof.
  unfold lt; cbn [cmp]. rewrite Qclt_alt. destruct (a ?= b); split; congruence.
Qed.

Lemma le_Num (a b : Qc) : le (Num a) (Num b) = true <-> a <= b.
Proof.
  unfold le; cbn [cmp]. split.
  - intros H. apply Qcnot_lt_le. intros Hlt. apply Qcgt_alt in Hlt.
    rewrite Hlt in H. discriminate.
  - intros H. destruct (a ?= b) eqn:E; try reflexivity.
    apply Qcgt_alt in E. exfalso. exact (Qcle_not_lt _ _ H E).
Qed.

(** Concrete equalities between numbers are decided on the reduced
    fractions. *)
Ltac num_eq :=
  repeat match goal with |- _ /\ _ => split end;
  vm_compute;
  first [reflexivity | f_equal; apply Qc_is_canon; reflexivity].

(** ** The loan record *)

(** Goals on canonical rationals are moved to plain fractions, where
    [lra] and [nra] apply. *)
Ltac qc2q :=
  unfold Qclt, Qcle, Qcdiv, Qcinv, Qcminus, Qcplus, Qcmult, Qcopp, Q2Qc in *;
  cbn [this] in *;
  repeat rewrite Qred_correct in *;
  change (/ inject_Z 100)%Q with (1 # 100)%Q in *;
  change (inject_Z 100) with (100 # 1)%Q in *;
  change (inject_Z 1) with 1%Q in *;
  change (inject_Z 0) with 0%Q in *.

Lemma Qc_hundred_pos : Qcsign (Q2Qc (inject_Z 100)) = Gt.
Proof. reflexivity. Qed.

(** C1.  In double precision a loan without an interest rate, or with
    the rate 0, totals its amount; a loan with a rate [r > 0] totals
    [amount + (amount * r) / 100], each of the three operations rounded;
    and 50000 at 10 percent totals 55000. *)
Theorem total_with_interest_rounded :
  (forall amount : Binary64.float,
      Binary64.calculateTotalWithInterest amount None = amount) /\
  (forall amount r : Binary64.float,
      Binary64.eqb r Binary64.zero = true ->
      Binary64.calculateTotalWithInterest amount (Some r) = amount) /\
  (forall amount r : Binary64.float,
      Binary64.gt r Binary64.zero = true ->
      Binary64.calculateTotalWithInterest amount (Some r)
      = Binary64.add amount
          (Binary64.div (Binary64.mul amount r) (Binary64.ofZ 100))) /\
  Binary64.calculateTotalWithInterest (Binary64.ofZ 50000) (Some (Binary64.ofZ 10))
  = Binary64.ofZ 55000.
Proof.
  split; [reflexivity|]. split; [|split].
  - intros amount r Hr. unfold Binary64.calculateTotalWithInterest.
    destruct r as [s|s| |s m e]; try destruct s; try reflexivity;
      vm_compute in Hr; discriminate.
  - intros amount r Hr. unfold Binary64.calculateTotalWithInterest.
    destruct r as [s|s| |s m e]; try destruct s; try reflexivity;
      vm_compute in Hr; discriminate.
  - vm_compute. reflexivity.
Qed.

Lemma total_with_interest_rounded_witness :
  Binary64.gt (Binary64.ofZ 7) Binary64.zero = true /\
  Binary64.calculateTotalWithInterest (Binary64.ofZ 101) (Some (Binary64.ofZ 7))
  = Binary64.add (Binary64.ofZ 101)
      (Binary64.div (Binary64.mul (Binary64.ofZ 101) (Binary64.ofZ 7)) (Binary64.ofZ 100)).
Proof.
  split; [reflexivity|].
  apply (proj1 (proj2 (proj2 total_with_interest_rounded))). reflexivity.
Defined.

(** C1, as the claim reads.  The product form [amount * (1 + r / 100)]
    is another computation: for 50000 at 10 percent it gives the double
    after 55000, while the code gives 55000; and for 101 at 7 percent
    the code gives a double, which is not the fraction 10807/100. *)
Lemma total_product_form_fails :
  Binary64.calculateTotalWithInterest (Binary64.ofZ 50000) (Some (Binary64.ofZ 10))
  = Binary64.ofZ 55000 /\
  Binary64.mul (Binary64.ofZ 50000)
    (Binary64.add (Binary64.ofZ 1) (Binary64.div (Binary64.ofZ 10) (Binary64.ofZ 100)))
  <> Binary64.calculateTotalWithInterest (Binary64.ofZ 50000) (Some (Binary64.ofZ 10)) /\
  Binary64.mul (Binary64.ofZ 101)
    (Binary64.add (Binary64.ofZ 1) (Binary64.div (Binary64.ofZ 7) (Binary64.ofZ 100)))
  <> Binary64.calculateTotalWithInterest (Binary64.ofZ 101) (Some (Binary64.ofZ 7)) /\
  (exists q : Q,
     Binary64.toQ (Binary64.calculateTotalWithInterest (Binary64.ofZ 101)
                     (Some (Binary64.ofZ 7))) = Some q /\
     ~ (q == 10807 # 100)%Q).
Proof.
  split; [vm_compute; reflexivity|].
  split; [vm_compute; discriminate|].
  split; [vm_compute; discriminate|].
  eexists. split; [vm_compute; reflexivity|].
  unfold Qeq. cbn. lia.
Qed.

(** C2.  A paid loan is not overdue, whatever its repayment date and
    whatever the clock reads. *)
Theorem paid_never_overdue (parse : string -> Date.time) (now : Z) (l : LoanModel) :
  isPaid l = true -> isOverdue parse now l = false.
Proof.
  intros H. unfold isOverdue. rewrite H. apply andb_false_r.
Qed.

Lemma paid_never_overdue_witness :
  Date.lt (Date.isoDay (repaymentDate Sample.paidLastMonth)) (Some Sample.now) = true /\
  isOverdue Date.isoDay Sample.now Sample.paidLastMonth = false.
Proof.
  split; [reflexivity|].
  apply (paid_never_overdue Date.isoDay Sample.now Sample.paidLastMonth). reflexivity.
Defined.

(** C9.  [isValidDate] accepts a string exactly when it parses to a date
    strictly after the current instant: an unparseable string, a date at
    or before now and in particular the date of today (midnight UTC of
    the current day) are all rejected, and the date of the next day is
    the first one accepted. *)
Theorem isValidDate_strictly_future (parse : string -> Date.time) (now : Z) (s : string) :
  (isValidDate parse now s = true <-> exists t, parse s = Some t /\ (now < t)%Z) /\
  (parse s = None -> isValidDate parse now s = false) /\
  (forall t, parse s = Some t -> (t <= now)%Z -> isValidDate parse now s = false) /\
  (parse s = Some (Date.startOfDay now) -> isValidDate parse now s = false) /\
  (parse s = Some (Date.startOfDay now + Date.msPerDay)%Z ->
   isValidDate parse now s = true).
Proof.
  unfold isValidDate, Date.hasTime, Date.gt, Date.lt.
  assert (Hday : (Date.startOfDay now <= now < Date.startOfDay now + Date.msPerDay)%Z).
  { unfold Date.startOfDay, Date.msPerDay.
    pose proof (Z.mod_pos_bound now 86400000). lia. }
  destruct (parse s) as [t|]; cbn [andb].
  - repeat split.
    + intros H. exists t. split; [reflexivity | now apply Z.ltb_lt].
    + intros [t' [E H]]. injection E as <-. now apply Z.ltb_lt.
    + discriminate.
    + intros t' E H. injection E as <-. apply Z.ltb_ge. exact H.
    + intros E. injection E as ->. apply Z.ltb_ge. apply Hday.
    + intros E. injection E as ->. apply Z.ltb_lt. apply Hday.
  - repeat split; try reflexivity; try discriminate.
    intros [t' [E _]]. discriminate.
Qed.

Lemma isValidDate_strictly_future_witness :
  Date.isoDay "2025-06-15" = Some (Date.startOfDay Sample.now) /\
  isValidDate Date.isoDay Sample.now "2025-06-15" = false /\
  isValidDate Date.isoDay Sample.now "2025-06-14" = false /\
  isValidDate Date.isoDay Sample.now "2025-13-01" = false /\
  isValidDate Date.isoDay Sample.now "2025-06-16" = true.
Proof.
  split; [reflexivity|]. split; [|split; [|split]].
  - apply (proj1 (proj2 (proj2 (proj2
      (isValidDate_strictly_future Date.isoDay Sample.now "2025-06-15"))))).
    reflexivity.
  - apply (proj1 (proj2 (proj2
      (isValidDate_strictly_future Date.isoDay Sample.now "2025-06-14")))
      1749859200000%Z); [reflexivity | unfold Sample.now; lia].
  - apply (proj1 (proj2
      (isValidDate_strictly_future Date.isoDay Sample.now "2025-13-01"))).
    reflexivity.
  - apply (proj1 (isValidDate_strictly_future Date.isoDay Sample.now "2025-06-16")).
    exists 1750032000000%Z. split; [reflexivity | unfold Sample.now; lia].
Defined.

(** ** Overview *)

Lemma sub_ofNat (a b : nat) : sub (ofNat a) (ofNat b) = ofZ (Z.of_nat a - Z.of_nat b).
Proof. apply ofZ_inj_sub. Qed.

Lemma add_ofNat (a b : nat) : add (ofNat a) (ofNat b) = ofNat (a + b).
Proof. unfold ofNat. rewrite ofZ_inj_add. f_equal. lia. Qed.

Lemma status_Paid (parse : string -> Date.time) (now : Z) (l : LoanModel) :
  Spec.statusEqb (status parse now l) Paid = isPaid l.
Proof. unfold status. destruct (isPaid l), (isOverdue parse now l); reflexivity. Qed.

Lemma status_Overdue (parse : string -> Date.time) (now : Z) (l : LoanModel) :
  Spec.statusEqb (status parse now l) Overdue = isOverdue parse now l.
Proof.
  unfold status. destruct (isPaid l) eqn:Hp.
  - unfold isOverdue; rewrite Hp; now rewrite andb_false_r.
  - destruct (isOverdue parse now l); reflexivity.
Qed.

(** Every loan is counted under exactly one status. *)
Lemma status_count (parse : string -> Date.time) (now : Z) (loans : list LoanModel) :
  List.length loans
  = (List.length (filter (fun l => Spec.statusEqb (status parse now l) Paid) loans)
     + List.length (filter (fun l => Spec.statusEqb (status parse now l) Overdue) loans)
     + List.length (filter (fun l => Spec.statusEqb (status parse now l) Pending) loans))%nat.
Proof.
  induction loans as [|l loans IH]; [reflexivity|].
  cbn [filter List.length]. destruct (status parse now l); cbn [Spec.statusEqb List.length]; lia.
Qed.

Lemma status_sound (parse : string -> Date.time) (now : Z) (l : LoanModel) :
  Spec.hasStatus parse now l (status parse now l).
Proof.
  unfold status, isOverdue, Spec.hasStatus.
  destruct (isPaid l); [reflexivity|].
  rewrite andb_true_r.
  destruct (Date.lt (parse (repaymentDate l)) (Some now)); split; reflexivity.
Qed.

Lemma status_unique (parse : string -> Date.time) (now : Z) (l : LoanModel) (s s' : Status) :
  Spec.hasStatus parse now l s -> Spec.hasStatus parse now l s' -> s = s'.
Proof.
  destruct s, s'; cbn [Spec.hasStatus]; intros H H'; try reflexivity;
    repeat match goal with H : _ /\ _ |- _ => destruct H end; congruence.
Qed.

(** C3.  At every evaluation time each loan has exactly one of the three
    statuses, the one the table shows; the overview counts the loans of
    each status, and the three counts add up to the number of loans. *)
Theorem status_partition (parse : string -> Date.time) (now : Z) (loans : list LoanModel) :
  (forall l : LoanModel,
      Spec.hasStatus parse now l (status parse now l) /\
      (forall s, Spec.hasStatus parse now l s -> s = status parse now l)) /\
  let o := generateOverviewAnalytics parse now loans in
  paidLoans o = len (filter (fun l => Spec.statusEqb (status parse now l) Paid) loans) /\
  overdueLoans o = len (filter (fun l => Spec.statusEqb (status parse now l) Overdue) loans) /\
  pendingLoans o = len (filter (fun l => Spec.statusEqb (status parse now l) Pending) loans) /\
  add (add (paidLoans o) (overdueLoans o)) (pendingLoans o) = totalLoans o.
Proof.
  split.
  - intros l. split; [apply status_sound|].
    intros s Hs. exact (status_unique parse now l _ _ Hs (status_sound parse now l)).
  - unfold generateOverviewAnalytics.
    cbv beta iota zeta delta [paidLoans overdueLoans pendingLoans totalLoans].
    rewrite <- (filter_ext (fun l => Spec.statusEqb (status parse now l) Paid) isPaid
                  (status_Paid parse now) loans).
    rewrite <- (filter_ext (fun l => Spec.statusEqb (status parse now l) Overdue)
                  (isOverdue parse now) (status_Overdue parse now) loans).
    pose proof (status_count parse now loans) as Hc.
    set (p := filter (fun l => Spec.statusEqb (status parse now l) Paid) loans) in *.
    set (o := filter (fun l => Spec.statusEqb (status parse now l) Overdue) loans) in *.
    set (q := filter (fun l => Spec.statusEqb (status parse now l) Pending) loans) in *.
    assert (Hq : sub (sub (len loans) (len p)) (len o) = len q).
    { unfold len. rewrite sub_ofNat. unfold ofNat at 1. rewrite ofZ_inj_sub.
      unfold ofNat. f_equal. lia. }
    split; [reflexivity|]. split; [reflexivity|]. split; [exact Hq|].
    rewrite Hq. unfold len. rewrite !add_ofNat. f_equal. lia.
Qed.

Lemma mkOverview_eq (a1 a2 a3 a4 a5 a6 a7 a8 a9 a10 a11 a12 a13 a14 b1 b2 b3 b4 b5 b6 b7 b8 b9 b10 b11 b12 b13 b14 : number) :
  a1 = b1 -> a2 = b2 -> a3 = b3 -> a4 = b4 -> a5 = b5 -> a6 = b6 -> a7 = b7 ->
  a8 = b8 -> a9 = b9 -> a10 = b10 -> a11 = b11 -> a12 = b12 -> a13 = b13 -> a14 = b14 ->
  mkOverview a1 a2 a3 a4 a5 a6 a7 a8 a9 a10 a11 a12 a13 a14
  = mkOverview b1 b2 b3 b4 b5 b6 b7 b8 b9 b10 b11 b12 b13 b14.
Proof. intros. subst. reflexivity. Qed.

(** C4.  The overview of no loans has every count and every amount equal
    to 0, and its payment rate is the number 0: the quotient of the two
    zero counts, which is [NaN], is not taken. *)
Theorem overview_empty (parse : string -> Date.time) (now : Z) :
  let o := generateOverviewAnalytics parse now [] in
  o = mkOverview zero zero zero zero zero zero zero zero zero zero zero zero zero zero /\
  paymentRate o = zero /\
  isNaN (paymentRate o) = false /\ isFinite (paymentRate o) = true /\
  div (paidLoans o) (totalLoans o) = NaN.
Proof.
  cbn zeta. split; [|num_eq].
  unfold generateOverviewAnalytics. cbn [filter map]. apply mkOverview_eq; num_eq.
Qed.






(** ** Risk assessment *)

Lemma cons_eq {A : Type} (x y : A) (xs ys : list A) :
  x = y -> xs = ys -> x :: xs = y :: ys.
Proof. intros -> ->. reflexivity. Qed.

Ltac num_list_eq :=
  vm_compute; repeat (apply cons_eq; [num_eq|]); reflexivity.

(** C8.  The risk assessment of no loans: the overall risk is the number
    25, there are five factors, and the last one, Portfolio Size, scores
    40.  The largest exposure is the maximum of no value, [-Infinity],
    and it stays out of the result because the total debt is not
    positive. *)
Theorem risk_empty (parse : string -> Date.time) (now : Z) :
  let r := generateRiskAssessment parse now [] in
  overallRisk r = ofZ 25 /\
  isNaN (overallRisk r) = false /\ isFinite (overallRisk r) = true /\
  List.length (factors r) = 5%nat /\
  map rf_name (factors r)
  = ["Overdue Rate"; "Concentration Risk"; "Interest Rate Risk";
     "Payment Velocity"; "Portfolio Size"]%string /\
  map rf_score (factors r) = [zero; ofZ 20; ofZ 10; ofZ 70; ofZ 40] /\
  maxOf (mapValues (exposures [])) = NegInf /\
  concentrationRateOf [] = zero.
Proof.
  cbn zeta. split; [num_eq|]. split; [reflexivity|]. split; [reflexivity|].
  split; [reflexivity|]. split; [reflexivity|]. split; [num_list_eq|].
  split; reflexivity.
Qed.

Lemma weightedSum_five (f1 f2 f3 f4 f5 : RiskFactor) :
  weightedSum [f1; f2; f3; f4; f5]
  = Spec.weighted (rf_score f1) (rf_score f2) (rf_score f3) (rf_score f4) (rf_score f5).
Proof.
  unfold weightedSum, reduceIdx, Spec.weighted. cbn [reduceFrom].
  rewrite add_zero_l.
  assert (W0 : weightAt 0 = ofQ (30 # 100)) by num_eq.
  assert (W1 : weightAt 1 = ofQ (25 # 100)) by num_eq.
  assert (W2 : weightAt 2 = ofQ (15 # 100)) by num_eq.
  assert (W3 : weightAt 3 = ofQ (20 # 100)) by num_eq.
  assert (W4 : weightAt 4 = ofQ (10 # 100)) by num_eq.
  now rewrite W0, W1, W2, W3, W4.
Qed.

(** C7.  The summary sentence is chosen from the weighted sum before it
    is rounded, while the overall risk that is reported, and that the
    display bands again at 70 and 40, is the rounded sum.  Four overdue
    loans of 100 without interest, two of them from one lender, score
    100, 50, 60, 70 and 40; the weighted sum is 69.5, the overall risk
    is 70, whose band is the high one, and the summary is the moderate
    one. *)
Lemma risk_band_of_rounded_score_fails :
  let r := generateRiskAssessment Date.isoDay Sample.now Sample.fourOverdue in
  map rf_score (factors r) = [ofZ 100; ofZ 50; ofZ 60; ofZ 70; ofZ 40] /\
  weightedSum (factors r) = ofQ (139 # 2) /\
  overallRisk r = ofZ 70 /\
  Spec.band (overallRisk r) = HighRisk /\
  summary r = summaryText ModerateRisk /\
  summary r <> summaryText (Spec.band (overallRisk r)).
Proof.
  cbn zeta. split; [num_list_eq|]. split; [num_eq|]. split; [num_eq|].
  assert (Hs : summary (generateRiskAssessment Date.isoDay Sample.now Sample.fourOverdue)
               = summaryText ModerateRisk) by (vm_compute; reflexivity).
  assert (Hb : Spec.band (overallRisk
                  (generateRiskAssessment Date.isoDay Sample.now Sample.fourOverdue))
               = HighRisk) by (vm_compute; reflexivity).
  split; [exact Hb|]. split; [exact Hs|]. rewrite Hs, Hb. discriminate.
Qed.

(** ** Payment trends *)



(** A longer window reaches further back: it keeps every paid loan a
    shorter window keeps. *)
Lemma window_nested (parse : string -> Date.time) (now d1 d2 : Z) (l : LoanModel) :
  (d1 <= d2)%Z ->
  Date.ge (parse (repaymentDate l)) (Some (Date.minusDays now d1)) && isPaid l = true ->
  Date.ge (parse (repaymentDate l)) (Some (Date.minusDays now d2)) && isPaid l = true.
Proof.
  intros Hd H. apply andb_true_iff in H. destruct H as [Hg Hp].
  apply andb_true_iff. split; [|exact Hp].
  unfold Date.ge, Date.minusDays, Date.msPerDay in *.
  destruct (parse (repaymentDate l)) as [t|]; [|discriminate].
  apply Z.leb_le in Hg. apply Z.leb_le. lia.
Qed.

Lemma Q_change_nonneg (b1 b2 : Q) :
  (0 < b1)%Q -> (b1 <= b2)%Q -> (0 <= (b2 + - b1) * / b1 * (100 # 1))%Q.
Proof.
  intros H1 H2.
  assert (Hinv : (0 < / b1)%Q) by now apply Qinv_lt_0_compat.
  assert (Hd : (0 <= b2 + - b1)%Q) by lra.
  assert (Hm : (0 <= (b2 + - b1) * / b1)%Q).
  { apply Qmult_le_0_compat; [exact Hd | now apply Qlt_le_weak]. }
  lra.
Qed.

Lemma Qc_change_nonneg (b1 b2 : Qc) :
  Q2Qc 0 < b1 -> b1 <= b2 ->
  Q2Qc 0 <= (b2 + - b1) / b1 * Q2Qc (inject_Z 100).
Proof. intros H1 H2. qc2q. now apply Q_change_nonneg. Qed.


Lemma ge_zero_Num (q : Qc) : Q2Qc 0 <= q -> ge (Num q) zero = true.
Proof. intros H. unfold ge, zero, ofZ. now apply le_Num. Qed.

Lemma change_value (b1 b2 : Qc) :
  Q2Qc 0 < b1 ->
  mul (div (sub (Num b2) (Num b1)) (Num b1)) (ofZ 100)
  = Num ((b2 + - b1) / b1 * Q2Qc (inject_Z 100)).
Proof.
  intros H. apply Qcsign_Gt in H.
  unfold sub, neg, div. cbn [add]. rewrite H. reflexivity.
Qed.



Lemma dayRanges_increasing (i : nat) :
  (i < 4)%nat -> (nth i dayRanges 0 <= nth (S i) dayRanges 0)%Z.
Proof.
  intros H. do 4 (destruct i as [|i]; [cbn; lia|]). lia.
Qed.













(** In double precision the same state is reached from finite amounts:
    the sum of two amounts of 1e308 is [Infinity], and the change
    computed from two such sums is [NaN]. *)
Lemma finite_amounts_overflow :
  let sum := Binary64.add (Binary64.ofZ (10 ^ 308)) (Binary64.ofZ (10 ^ 308)) in
  sum = Binary64.infinity /\
  Binary64.isNaN
    (Binary64.mul (Binary64.div (Binary64.sub sum sum) sum) (Binary64.ofZ 100)) = true.
Proof. cbn zeta. split; vm_compute; reflexivity. Qed.

(** ** Lender analysis *)

(** *** The map *)

Section StringMapFacts.

Context {V : Type}.
Implicit Types (m : smap V) (k : string) (v : V).

Lemma mapGet_app m1 m2 k :
  mapGet k (m1 ++ m2)
  = match mapGet k m1 with Some v => Some v | None => mapGet k m2 end.
Proof.
  induction m1 as [|[k' v'] m1 IH]; [reflexivity|].
  cbn [app mapGet]. destruct (String.eqb k k'); [reflexivity | exact IH].
Qed.

Lemma mapGet_update (f : V -> V) m k k' :
  mapGet k' (mapUpdate f k m)
  = if String.eqb k' k then option_map f (mapGet k m) else mapGet k' m.
Proof.
  induction m as [|[k0 v0] m IH].
  - cbn. now destruct (String.eqb k' k).
  - cbn [mapUpdate mapGet]. destruct (String.eqb k k0) eqn:E.
    + apply String.eqb_eq in E. subst k0. cbn [mapGet].
      destruct (String.eqb k' k); reflexivity.
    + cbn [mapGet]. destruct (String.eqb k' k0) eqn:E'.
      * apply String.eqb_eq in E'. subst k0.
        rewrite String.eqb_sym in E. now rewrite E.
      * exact IH.
Qed.

Lemma keys_update (f : V -> V) m k : keys (mapUpdate f k m) = keys m.
Proof.
  induction m as [|[k0 v0] m IH]; [reflexivity|].
  unfold keys in *. cbn [mapUpdate]. destruct (String.eqb k k0); cbn [map fst]; congruence.
Qed.

Lemma mapGet_None_keys m k : mapGet k m = None <-> ~ In k (keys m).
Proof.
  unfold keys. induction m as [|[k0 v0] m IH]; cbn [mapGet map fst In].
  - tauto.
  - destruct (String.eqb k k0) eqn:E.
    + apply String.eqb_eq in E. subst. split; [discriminate | tauto].
    + apply String.eqb_neq in E. rewrite IH. split.
      * intros H [H' | H']; [congruence | tauto].
      * tauto.
Qed.

Lemma mapGet_In m k v : mapGet k m = Some v -> In (k, v) m.
Proof.
  induction m as [|[k0 v0] m IH]; cbn [mapGet In]; [discriminate|].
  destruct (String.eqb k k0) eqn:E.
  - apply String.eqb_eq in E. subst. intros H. injection H as ->. now left.
  - intros H. right. now apply IH.
Qed.

Lemma In_mapGet m k v : NoDup (keys m) -> In (k, v) m -> mapGet k m = Some v.
Proof.
  unfold keys. induction m as [|[k0 v0] m IH]; cbn [mapGet In map fst]; [tauto|].
  intros Hnd [H | H].
  - injection H as -> ->. now rewrite String.eqb_refl.
  - inversion Hnd as [|? ? Hnotin Hnd']; subst.
    destruct (String.eqb k k0) eqn:E.
    + apply String.eqb_eq in E. subst. exfalso. apply Hnotin.
      change (In (fst (k0, v)) (map fst m)). now apply in_map.
    + now apply IH.
Qed.

Lemma keys_set_new m k v :
  mapHas k m = false -> keys (mapSet k v m) = keys m ++ [k].
Proof.
  intros H. unfold mapSet. rewrite H. unfold keys. now rewrite map_app.
Qed.

End StringMapFacts.

(** *** Grouping *)

Section Grouping.

Variable parse : string -> Date.time.
Variable now : Z.

Lemma dataOf_snoc (group : list LoanModel) (l : LoanModel) :
  dataOf parse now (group ++ [l]) = recordLoan parse now l (dataOf parse now group).
Proof. unfold dataOf. now rewrite fold_left_app. Qed.

Lemma groupOf_snoc (name : string) (loans : list LoanModel) (l : LoanModel) :
  Spec.groupOf name (loans ++ [l])
  = Spec.groupOf name loans ++ (if String.eqb (lenderName l) name then [l] else []).
Proof. unfold Spec.groupOf. now rewrite filter_app. Qed.

Lemma groupByLender_snoc (loans : list LoanModel) (l : LoanModel) :
  groupByLender parse now (loans ++ [l])
  = groupStep parse now (groupByLender parse now loans) l.
Proof. unfold groupByLender. now rewrite fold_left_app. Qed.

Lemma groupEntry_snoc_same (loans : list LoanModel) (l : LoanModel) :
  groupEntry parse now (lenderName l) (loans ++ [l])
  = Some (recordLoan parse now l
            (match groupEntry parse now (lenderName l) loans with
             | Some data => data
             | None => emptyLenderData
             end)).
Proof.
  unfold groupEntry. rewrite groupOf_snoc, String.eqb_refl.
  destruct (Spec.groupOf (lenderName l) loans) as [|l0 g] eqn:E.
  - reflexivity.
  - rewrite <- dataOf_snoc. reflexivity.
Qed.

Lemma groupEntry_snoc_other (name : string) (loans : list LoanModel) (l : LoanModel) :
  String.eqb name (lenderName l) = false ->
  groupEntry parse now name (loans ++ [l]) = groupEntry parse now name loans.
Proof.
  intros H. unfold groupEntry. rewrite groupOf_snoc.
  rewrite String.eqb_sym, H. now rewrite app_nil_r.
Qed.

(** After the grouping loop the map holds, under each lender name, the
    record of the loans of that lender, and each name once. *)
Lemma groupByLender_spec (loans : list LoanModel) :
  NoDup (keys (groupByLender parse now loans)) /\
  forall name, mapGet name (groupByLender parse now loans) = groupEntry parse now name loans.
Proof.
  induction loans as [|l loans [IHnd IH]] using rev_ind.
  - split; [constructor | reflexivity].
  - rewrite groupByLender_snoc. unfold groupStep.
    set (m := groupByLender parse now loans) in *.
    split.
    + rewrite keys_update. unfold mapHas.
      destruct (mapGet (lenderName l) m) eqn:E; cbn [negb]; [exact IHnd|].
      rewrite keys_set_new by (unfold mapHas; now rewrite E).
      apply NoDup_app; [exact IHnd | repeat constructor; intros [] |].
      intros k Hk [<- | []]. now apply mapGet_None_keys in E.
    + intros name. rewrite mapGet_update.
      destruct (String.eqb name (lenderName l)) eqn:En.
      * apply String.eqb_eq in En. subst name.
        rewrite groupEntry_snoc_same, <- IH.
        unfold mapHas. destruct (mapGet (lenderName l) m) eqn:E; cbn [negb].
        -- rewrite E. reflexivity.
        -- unfold mapSet, mapHas. rewrite E, mapGet_app, E.
           cbn [mapGet]. now rewrite String.eqb_refl.
      * rewrite (groupEntry_snoc_other name loans l En), <- IH.
        unfold mapHas. destruct (mapGet (lenderName l) m) eqn:E; cbn [negb]; [reflexivity|].
        unfold mapSet, mapHas. rewrite E, mapGet_app.
        destruct (mapGet name m); [reflexivity|].
        cbn [mapGet]. now rewrite En.
Qed.

End Grouping.

(** *** The record of a group *)

Section GroupData.

Variable parse : string -> Date.time.
Variable now : Z.

Lemma len_snoc {A : Type} (xs : list A) (x : A) : len (xs ++ [x]) = add (len xs) (ofZ 1).
Proof.
  unfold len. rewrite ofNat_succ, length_app. cbn [List.length]. f_equal. lia.
Qed.

Lemma sumTotals_snoc (group : list LoanModel) (l : LoanModel) :
  sumTotals (group ++ [l]) = add (sumTotals group) (calculateTotalWithInterest l).
Proof. unfold sumTotals. now rewrite fold_left_app. Qed.

Lemma paid_overdue_false (l : LoanModel) :
  isPaid l = true -> isOverdue parse now l = false.
Proof. intros H. unfold isOverdue. rewrite H. apply andb_false_r. Qed.

Lemma dataOf_fields (group : list LoanModel) :
  let data := dataOf parse now group in
  ld_loans data = group /\
  ld_totalAmount data = sumTotals group /\
  ld_paidLoans data = len (filter isPaid group) /\
  ld_overdueLoans data = len (filter (isOverdue parse now) group).
Proof.
  induction group as [|l group IH] using rev_ind; [repeat split|].
  cbn zeta in *. destruct IH as [H1 [H2 [H3 H4]]].
  rewrite dataOf_snoc. unfold recordLoan.
  cbn [ld_loans ld_totalAmount ld_paidLoans ld_overdueLoans].
  rewrite H1, H2, H3, H4, sumTotals_snoc, !filter_app. cbn [filter].
  split; [reflexivity|]. split; [reflexivity|].
  destruct (isPaid l) eqn:Hp.
  - rewrite (paid_overdue_false l Hp), app_nil_r, len_snoc. split; reflexivity.
  - rewrite app_nil_r. split; [reflexivity|].
    destruct (isOverdue parse now l); [now rewrite len_snoc | now rewrite app_nil_r].
Qed.

End GroupData.

(** *** The sort *)

Section SortFacts.

Context {A : Type}.
Variable compareFn : A -> A -> number.

Lemma insertBy_perm (x : A) (l : list A) : Permutation (insertBy compareFn x l) (x :: l).
Proof.
  induction l as [|y l IH]; cbn [insertBy]; [apply Permutation_refl|].
  destruct (lt (compareFn x y) zero); [apply Permutation_refl|].
  apply Permutation_trans with (y :: x :: l).
  - now apply perm_skip.
  - apply perm_swap.
Qed.

Lemma sortBy_from_perm (l acc : list A) :
  Permutation (fold_left (fun acc x => insertBy compareFn x acc) l acc) (acc ++ l).
Proof.
  revert acc. induction l as [|x l IH]; intros acc; cbn [fold_left].
  - rewrite app_nil_r. apply Permutation_refl.
  - apply Permutation_trans with (insertBy compareFn x acc ++ l); [apply IH|].
    apply Permutation_trans with ((x :: acc) ++ l).
    + apply Permutation_app_tail. apply insertBy_perm.
    + cbn [app]. apply Permutation_middle.
Qed.

Lemma sortBy_perm (l : list A) : Permutation (sortBy compareFn l) l.
Proof. unfold sortBy. apply (sortBy_from_perm l []). Qed.

End SortFacts.

Lemma ge_trans (x y z : number) :
  ge x y = true -> ge y z = true -> ge x z = true.
Proof.
  destruct x as [a| | |], y as [b| | |], z as [c| | |];
    try discriminate; try reflexivity.
  unfold ge. rewrite !le_Num. intros H1 H2. exact (Qcle_trans _ _ _ H2 H1).
Qed.

Lemma desc_before_Num (a b : Qc) :
  lt (sub (Num b) (Num a)) zero = true -> ge (Num a) (Num b) = true.
Proof.
  unfold sub, neg, zero, ofZ. cbn [add]. rewrite lt_Num. unfold ge. rewrite le_Num.
  intros H. qc2q. lra.
Qed.

Lemma desc_after_Num (a b : Qc) :
  lt (sub (Num b) (Num a)) zero = false -> ge (Num b) (Num a) = true.
Proof.
  unfold sub, neg, zero, ofZ. cbn [add]. unfold ge. rewrite le_Num.
  intros H. apply Qcnot_lt_le. intros Hlt.
  assert (Ht : lt (Num (b + - a)) (Num (Q2Qc (inject_Z 0))) = true).
  { apply lt_Num. clear - Hlt. qc2q. lra. }
  congruence.
Qed.

(** The comparator [b.totalAmount - a.totalAmount] puts [a] first only
    when its total is at least that of [b], and leaves [a] behind only
    when the total of [b] is at least its own, as long as neither total
    is [NaN]. *)
Lemma desc_before (x y : number) :
  isNaN x = false -> isNaN y = false ->
  lt (sub y x) zero = true -> ge x y = true.
Proof.
  destruct x as [a| | |], y as [b| | |]; try discriminate; intros _ _;
    try reflexivity; try (intros H; discriminate H).
  apply desc_before_Num.
Qed.

Lemma desc_after (x y : number) :
  isNaN x = false -> isNaN y = false ->
  lt (sub y x) zero = false -> ge y x = true.
Proof.
  destruct x as [a| | |], y as [b| | |]; try discriminate; intros _ _;
    try reflexivity; try (intros H; discriminate H).
  apply desc_after_Num.
Qed.



(** *** The entries *)




Lemma total_finite (l : LoanModel) :
  Spec.finiteLoan l = true -> isFinite (calculateTotalWithInterest l) = true.
Proof.
  unfold Spec.finiteLoan, calculateTotalWithInterest, hasInterest.
  intros H. apply andb_true_iff in H. destruct H as [Ha Hr].
  destruct (amount l) as [a| | |]; try discriminate.
  destruct (interestRate l) as [[r| | |]|]; try discriminate; [|reflexivity].
  destruct (truthy (Num r)); [|reflexivity].
  cbn [mul]. unfold div, ofZ. rewrite Qc_hundred_pos. reflexivity.
Qed.



(** The three lenders of the scenario, largest total first, and the
    single lender with two overdue loans out of three. *)
Example lender_analysis_samples :
  map (fun e => (la_name e, la_riskLevel e))
    (generateLenderAnalysis Date.isoDay Sample.now Sample.loans)
  = [("Chidi", Low); ("Ada", High); ("Bola", High)]%string /\
  map la_totalAmount (generateLenderAnalysis Date.isoDay Sample.now Sample.loans)
  = [ofZ 75000; ofZ 55000; ofZ 26250] /\
  map (fun e => (la_name e, la_riskLevel e))
    (generateLenderAnalysis Date.isoDay Sample.now Sample.acme)
  = [("Acme", High)]%string /\
  map (fun e => showPercent (percentOf (la_overdueLoans e) (la_totalLoans e)))
    (generateLenderAnalysis Date.isoDay Sample.now Sample.acme)
  = ["66.7%"]%string.
Proof.
  split; [vm_compute; reflexivity|]. split; [num_list_eq|].
  split; vm_compute; reflexivity.
Qed.

Lemma status_partition_witness :
  Spec.hasStatus Date.isoDay Sample.now Sample.dueYesterday Overdue /\
  Overdue = status Date.isoDay Sample.now Sample.dueYesterday /\
  Spec.hasStatus Date.isoDay Sample.now Sample.dueTomorrow Pending /\
  Pending = status Date.isoDay Sample.now Sample.dueTomorrow.
Proof.
  assert (H1 : Spec.hasStatus Date.isoDay Sample.now Sample.dueYesterday Overdue)
    by (split; reflexivity).
  assert (H2 : Spec.hasStatus Date.isoDay Sample.now Sample.dueTomorrow Pending)
    by (split; reflexivity).
  split; [exact H1|]. split.
  - exact (proj2 (proj1 (status_partition Date.isoDay Sample.now Sample.loans)
                    Sample.dueYesterday) Overdue H1).
  - split; [exact H2|].
    exact (proj2 (proj1 (status_partition Date.isoDay Sample.now Sample.loans)
                    Sample.dueTomorrow) Pending H2).
Defined.

(** * Further properties of the code *)

(** ** Finite sums *)

Lemma finite_Num (x : number) : isFinite x = true -> x = Num (valueOf x).
Proof. destruct x; (discriminate || reflexivity). Qed.

Lemma finite_total (l : LoanModel) :
  Spec.finiteLoan l = true -> calculateTotalWithInterest l = Num (totalQ l).
Proof. intros H. apply finite_Num. now apply total_finite. Qed.



(** ** Percentages of counts *)

Lemma Q_percent_bounds (K N : Q) :
  (0 <= K)%Q -> (K <= N)%Q -> (0 < N)%Q ->
  (0 <= K * / N * (100 # 1))%Q /\ (K * / N * (100 # 1) <= 100 # 1)%Q.
Proof.
  intros H0 HK HN.
  assert (Hinv : (0 <= / N)%Q) by (apply Qinv_le_0_compat; lra).
  assert (Hx0 : (0 <= K * / N)%Q) by now apply Qmult_le_0_compat.
  assert (Hx1 : (K / N <= 1)%Q) by (apply Qle_shift_div_r; lra).
  unfold Qdiv in Hx1. set (x := (K * / N)%Q) in *. split; lra.
Qed.

Lemma Qc_of_nat_le (k n : nat) :
  (k <= n)%nat -> Q2Qc (inject_Z (Z.of_nat k)) <= Q2Qc (inject_Z (Z.of_nat n)).
Proof.
  intros H. unfold Qcle, Q2Qc; cbn [this]. rewrite !Qred_correct.
  rewrite <- Zle_Qle. lia.
Qed.

Lemma Qc_of_nat_pos (n : nat) :
  (0 < n)%nat -> Q2Qc 0 < Q2Qc (inject_Z (Z.of_nat n)).
Proof.
  intros H. unfold Qclt, Q2Qc; cbn [this]. rewrite !Qred_correct.
  change 0%Q with (inject_Z 0). rewrite <- Zlt_Qlt. lia.
Qed.

Lemma pctQ_bounds (k n : nat) :
  (k <= n)%nat -> (0 < n)%nat -> Q2Qc 0 <= pctQ k n /\ pctQ k n <= Q2Qc (inject_Z 100).
Proof.
  intros Hk Hn. pose proof (Qc_of_nat_le 0 k (Nat.le_0_l k)) as H0.
  pose proof (Qc_of_nat_le k n Hk) as H1. pose proof (Qc_of_nat_pos n Hn) as H2.
  unfold pctQ. qc2q. change (inject_Z (Z.of_nat 0)) with 0%Q in H0.
  now apply Q_percent_bounds.
Qed.

Lemma percentOf_ofNat (k n : nat) :
  percentOf (ofNat k) (ofNat n)
  = match n with O => zero | S _ => Num (pctQ k n) end.
Proof.
  unfold percentOf, ofNat, zero. rewrite gt_ofZ. destruct n as [|n'].
  - reflexivity.
  - replace (0 <? Z.of_nat (S n'))%Z with true by (symmetry; apply Z.ltb_lt; lia).
    unfold ofZ, div. pose proof (Qc_of_nat_pos (S n') (Nat.lt_0_succ n')) as Hpos.
    apply Qcsign_Gt in Hpos. rewrite Hpos. reflexivity.
Qed.

(** A percentage of a part of a whole is a number from 0 to 100. *)
Lemma percentOf_part {A : Type} (keep : A -> bool) (xs : list A) :
  exists q : Qc,
    percentOf (len (filter keep xs)) (len xs) = Num q /\
    Q2Qc 0 <= q /\ q <= Q2Qc (inject_Z 100).
Proof.
  unfold len. rewrite percentOf_ofNat.
  destruct (List.length xs) as [|n'] eqn:E.
  - exists (Q2Qc 0). split; [reflexivity|]. split; [apply Qcle_refl|]. now apply Qclt_le_weak.
  - exists (pctQ (List.length (filter keep xs)) (S n')). split; [reflexivity|].
    apply pctQ_bounds; [|lia]. rewrite <- E. apply filter_length_le.
Qed.

(** *** The lender analysis, with the rates of the specification *)







(** X3.  For every list of loans the payment rate of the overview and
    the default and recovery rates of the portfolio metrics are numbers
    from 0 to 100, and the recovery rate is the payment rate.  The
    overdue loans behind the default rate and the paid loans behind the
    recovery rate are never the same loans: together they are at most
    all the loans. *)
Theorem rates_within_bounds (parse : string -> Date.time) (now : Z)
    (loans : list LoanModel) :
  let o := generateOverviewAnalytics parse now loans in
  let m := calculatePortfolioMetrics parse now loans in
  (ge (paymentRate o) zero = true /\ le (paymentRate o) (ofZ 100) = true) /\
  (ge (pm_defaultRate m) zero = true /\ le (pm_defaultRate m) (ofZ 100) = true) /\
  pm_recoveryRate m = paymentRate o /\
  (List.length (filter (isOverdue parse now) loans) + List.length (filter isPaid loans)
   <= List.length loans)%nat.
Proof.
  cbn zeta. unfold generateOverviewAnalytics, calculatePortfolioMetrics.
  cbv beta iota zeta delta [paymentRate pm_defaultRate pm_recoveryRate].
  destruct (percentOf_part isPaid loans) as [p [Hp [Hp0 Hp1]]].
  destruct (percentOf_part (isOverdue parse now) loans) as [d [Hd [Hd0 Hd1]]].
  split; [|split; [|split; [reflexivity|]]].
  - rewrite Hp. split; [now apply ge_zero_Num | unfold ofZ; now apply le_Num].
  - rewrite Hd. split; [now apply ge_zero_Num | unfold ofZ; now apply le_Num].
  - pose proof (status_count parse now loans) as Hc.
    rewrite (filter_ext _ _ (status_Paid parse now) loans) in Hc.
    rewrite (filter_ext _ _ (status_Overdue parse now) loans) in Hc. lia.
Qed.

(** ** Minimum and maximum *)

Lemma min2_Num (a b : Qc) : min2 (Num a) (Num b) = Num (if Qclt_le_dec b a then b else a).
Proof.
  unfold min2; cbn [cmp]. destruct (Qclt_le_dec b a) as [H | H].
  - assert (E : (a ?= b) = Gt) by now apply Qcgt_alt.
    now rewrite E.
  - destruct (a ?= b) eqn:E; try reflexivity.
    assert (Hlt : b < a) by now apply Qcgt_alt.
    exfalso. exact (Qcle_not_lt _ _ H Hlt).
Qed.

Lemma max2_Num (a b : Qc) : max2 (Num a) (Num b) = Num (if Qclt_le_dec a b then b else a).
Proof.
  unfold max2; cbn [cmp]. destruct (Qclt_le_dec a b) as [H | H].
  - assert (E : (a ?= b) = Lt) by now apply Qclt_alt.
    now rewrite E.
  - destruct (a ?= b) eqn:E; try reflexivity.
    assert (Hlt : a < b) by now apply Qclt_alt.
    exfalso. exact (Qcle_not_lt _ _ H Hlt).
Qed.

Lemma fold_min2_Num (qs : list Qc) (a : Qc) :
  exists m : Qc,
    fold_left min2 (map Num qs) (Num a) = Num m /\
    (m = a \/ In m qs) /\ m <= a /\ Forall (fun q => m <= q) qs.
Proof.
  revert a. induction qs as [|q qs IH]; intros a.
  - exists a. split; [reflexivity|]. split; [now left|]. split; [apply Qcle_refl|constructor].
  - cbn [map fold_left]. rewrite min2_Num.
    destruct (Qclt_le_dec q a) as [H | H].
    + destruct (IH q) as [m [E [Hin [Hle Hall]]]]. exists m. split; [exact E|].
      split; [right; destruct Hin as [-> | Hin]; [now left | now right]|].
      split; [exact (Qcle_trans _ _ _ Hle (Qclt_le_weak _ _ H))|].
      constructor; assumption.
    + destruct (IH a) as [m [E [Hin [Hle Hall]]]]. exists m. split; [exact E|].
      split; [destruct Hin as [-> | Hin]; [now left | right; now right]|].
      split; [exact Hle|]. constructor; [exact (Qcle_trans _ _ _ Hle H) | exact Hall].
Qed.

Lemma fold_max2_Num (qs : list Qc) (a : Qc) :
  exists m : Qc,
    fold_left max2 (map Num qs) (Num a) = Num m /\
    (m = a \/ In m qs) /\ a <= m /\ Forall (fun q => q <= m) qs.
Proof.
  revert a. induction qs as [|q qs IH]; intros a.
  - exists a. split; [reflexivity|]. split; [now left|]. split; [apply Qcle_refl|constructor].
  - cbn [map fold_left]. rewrite max2_Num.
    destruct (Qclt_le_dec a q) as [H | H].
    + destruct (IH q) as [m [E [Hin [Hle Hall]]]]. exists m. split; [exact E|].
      split; [right; destruct Hin as [-> | Hin]; [now left | now right]|].
      split; [exact (Qcle_trans _ _ _ (Qclt_le_weak _ _ H) Hle)|].
      constructor; assumption.
    + destruct (IH a) as [m [E [Hin [Hle Hall]]]]. exists m. split; [exact E|].
      split; [destruct Hin as [-> | Hin]; [now left | right; now right]|].
      split; [exact Hle|]. constructor; [exact (Qcle_trans _ _ _ H Hle) | exact Hall].
Qed.

(** The minimum and the maximum of finite numbers, none missing, are
    elements of the list that bound all of it. *)
Lemma minOf_Num (q : Qc) (qs : list Qc) :
  exists m : Qc,
    minOf (map Num (q :: qs)) = Num m /\ In m (q :: qs) /\
    Forall (fun x => m <= x) (q :: qs).
Proof.
  unfold minOf. cbn [map fold_left].
  change (min2 PosInf (Num q)) with (Num q).
  destruct (fold_min2_Num qs q) as [m [E [Hin [Hle Hall]]]].
  exists m. split; [exact E|]. split.
  - destruct Hin as [-> | Hin]; [now left | now right].
  - constructor; assumption.
Qed.

Lemma maxOf_Num (q : Qc) (qs : list Qc) :
  exists m : Qc,
    maxOf (map Num (q :: qs)) = Num m /\ In m (q :: qs) /\
    Forall (fun x => x <= m) (q :: qs).
Proof.
  unfold maxOf. cbn [map fold_left].
  change (max2 NegInf (Num q)) with (Num q).
  destruct (fold_max2_Num qs q) as [m [E [Hin [Hle Hall]]]].
  exists m. split; [exact E|]. split.
  - destruct Hin as [-> | Hin]; [now left | now right].
  - constructor; assumption.
Qed.

Lemma gt_len_zero {A : Type} (xs : list A) : xs <> [] -> gt (len xs) zero = true.
Proof.
  intros H. unfold len, ofNat, zero. rewrite gt_ofZ. apply Z.ltb_lt.
  destruct xs; [congruence | cbn; lia].
Qed.

Lemma map_total_Num (loans : list LoanModel) :
  forallb Spec.finiteLoan loans = true ->
  map calculateTotalWithInterest loans = map Num (map totalQ loans).
Proof.
  induction loans as [|l loans IH]; intros Hall; [reflexivity|].
  cbn [forallb] in Hall. apply andb_true_iff in Hall. destruct Hall as [Hl Hall].
  cbn [map]. now rewrite (finite_total l Hl), IH.
Qed.

(** X4.  For a non-empty list of loans with finite amounts and rates,
    the smallest and the largest loan of the overview are the totals of
    two loans of the list, and every total lies between them. *)
Theorem overview_extremes (parse : string -> Date.time) (now : Z)
    (loans : list LoanModel) :
  forallb Spec.finiteLoan loans = true -> loans <> [] ->
  let o := generateOverviewAnalytics parse now loans in
  (exists l, In l loans /\ smallestLoan o = calculateTotalWithInterest l) /\
  (exists l, In l loans /\ largestLoan o = calculateTotalWithInterest l) /\
  (forall l, In l loans ->
     le (smallestLoan o) (calculateTotalWithInterest l) = true /\
     le (calculateTotalWithInterest l) (largestLoan o) = true).
Proof.
  intros Hall Hne. unfold generateOverviewAnalytics.
  cbv beta iota zeta delta [smallestLoan largestLoan].
  assert (Hne' : map calculateTotalWithInterest loans <> []) by (destruct loans; cbn; congruence).
  rewrite (gt_len_zero _ Hne').
  rewrite (map_total_Num loans Hall).
  assert (Hq : map totalQ loans <> []) by (destruct loans; cbn; congruence).
  destruct (map totalQ loans) as [|q qs] eqn:Eq; [congruence|].
  destruct (minOf_Num q qs) as [m [Em [Hm Hlow]]].
  destruct (maxOf_Num q qs) as [M [EM [HM Hup]]].
  rewrite Em, EM.
  assert (Hpick : forall x, In x (q :: qs) ->
            exists l, In l loans /\ Num x = calculateTotalWithInterest l).
  { intros x Hx. rewrite <- Eq in Hx. apply in_map_iff in Hx.
    destruct Hx as [l [<- Hl]]. exists l. split; [exact Hl|].
    symmetry. apply finite_total. rewrite forallb_forall in Hall. now apply Hall. }
  split; [now apply Hpick|]. split; [now apply Hpick|].
  intros l Hl.
  assert (Hfin : Spec.finiteLoan l = true) by (rewrite forallb_forall in Hall; now apply Hall).
  rewrite (finite_total l Hfin).
  assert (Hin : In (totalQ l) (q :: qs)) by (rewrite <- Eq; now apply in_map).
  rewrite Forall_forall in Hlow, Hup.
  split; apply le_Num; [now apply Hlow | now apply Hup].
Qed.

Lemma overview_extremes_witness :
  forallb Spec.finiteLoan Sample.loans = true /\ Sample.loans <> [] /\
  le (smallestLoan (generateOverviewAnalytics Date.isoDay Sample.now Sample.loans))
     (calculateTotalWithInterest Sample.dueYesterday)
  = true.
Proof.
  assert (Hne : Sample.loans <> []) by discriminate.
  split; [reflexivity|]. split; [exact Hne|].
  refine (proj1 (proj2 (proj2
    (overview_extremes Date.isoDay Sample.now Sample.loans eq_refl Hne))
    Sample.dueYesterday _)).
  left. reflexivity.
Defined.

(** ** Interest analysis *)

Lemma withInterest_rate (l : LoanModel) :
  withInterest l = true ->
  exists r, interestRate l = Some r /\ rateOf l = r /\ gt r zero = true.
Proof.
  unfold withInterest, hasInterest, rateOf.
  destruct (interestRate l) as [r|]; [|discriminate].
  destruct (truthy r); [|discriminate]. intros H. now exists r.
Qed.

Lemma rates_Num (loans : list LoanModel) :
  forallb Spec.finiteLoan loans = true ->
  map rateOf (filter withInterest loans)
  = map Num (map (fun l => valueOf (rateOf l)) (filter withInterest loans)).
Proof.
  intros Hall. rewrite map_map. apply map_ext_in. intros l Hl.
  apply filter_In in Hl. destruct Hl as [Hin Hw].
  rewrite forallb_forall in Hall. pose proof (Hall l Hin) as Hfin.
  destruct (withInterest_rate l Hw) as [r [Hr [Hrate _]]].
  unfold Spec.finiteLoan in Hfin. rewrite Hr in Hfin.
  apply andb_true_iff in Hfin. destruct Hfin as [_ Hfin].
  rewrite Hrate. now apply finite_Num.
Qed.

(** X5.  When no loan carries interest (in particular for no loans at
    all) the interest analysis reports 0 loans with interest and the
    average, highest and lowest rate 0: the maximum and the minimum of
    no rate, which are infinite, are not reported. *)
Theorem interest_analysis_without_rates (loans : list LoanModel) :
  filter withInterest loans = [] ->
  let i := generateInterestAnalysis loans in
  ia_loansWithInterest i = zero /\ ia_averageRate i = zero /\
  ia_highestRate i = zero /\ ia_lowestRate i = zero /\
  ia_interestLoanPercentage i = zero /\
  maxOf (map rateOf (filter withInterest loans)) = NegInf /\
  minOf (map rateOf (filter withInterest loans)) = PosInf.
Proof.
  intros H. cbn zeta. unfold generateInterestAnalysis.
  cbv beta iota zeta delta
    [ia_loansWithInterest ia_averageRate ia_highestRate ia_lowestRate
     ia_interestLoanPercentage].
  rewrite H. cbn [map].
  assert (Hz : gt (len (@nil number)) zero = false) by reflexivity.
  rewrite Hz. split; [reflexivity|]. split; [reflexivity|].
  split; [reflexivity|]. split; [reflexivity|]. split; [|split; reflexivity].
  unfold len. rewrite percentOf_ofNat. cbn [List.length].
  destruct (List.length loans); [reflexivity|].
  unfold zero, ofZ. apply (f_equal Num). unfold pctQ, Qcdiv.
  change (Q2Qc (inject_Z (Z.of_nat 0))) with (Q2Qc 0).
  change (Q2Qc (inject_Z 0)) with (Q2Qc 0). ring.
Qed.

Lemma interest_analysis_without_rates_witness :
  filter withInterest [Sample.paidLastMonth] = [] /\
  ia_highestRate (generateInterestAnalysis [Sample.paidLastMonth]) = zero.
Proof.
  split; [reflexivity|].
  exact (proj1 (proj2 (proj2
    (interest_analysis_without_rates [Sample.paidLastMonth] eq_refl)))).
Defined.

(** X6.  For loans with finite amounts and rates of which at least one
    carries interest, the lowest and the highest rate of the interest
    analysis are rates of loans of the list, the lowest is above 0, and
    the rate of every loan that carries interest lies between them. *)
Theorem interest_rates_ordered (loans : list LoanModel) :
  forallb Spec.finiteLoan loans = true -> filter withInterest loans <> [] ->
  let i := generateInterestAnalysis loans in
  (exists l, In l loans /\ interestRate l = Some (ia_lowestRate i)) /\
  (exists l, In l loans /\ interestRate l = Some (ia_highestRate i)) /\
  gt (ia_lowestRate i) zero = true /\
  (forall l r, In l loans -> withInterest l = true -> interestRate l = Some r ->
     le (ia_lowestRate i) r = true /\ le r (ia_highestRate i) = true).
Proof.
  intros Hall Hne. cbn zeta. unfold generateInterestAnalysis.
  cbv beta iota zeta delta [ia_highestRate ia_lowestRate].
  assert (Hne' : map rateOf (filter withInterest loans) <> []).
  { destruct (filter withInterest loans); cbn; congruence. }
  rewrite (gt_len_zero _ Hne').
  assert (Hpick : forall x, In x (map (fun l => valueOf (rateOf l)) (filter withInterest loans)) ->
            exists l, In l loans /\ interestRate l = Some (Num x) /\ gt (Num x) zero = true).
  { intros x Hx. apply in_map_iff in Hx. destruct Hx as [l [<- Hl]].
    apply filter_In in Hl. destruct Hl as [Hin Hw]. exists l. split; [exact Hin|].
    destruct (withInterest_rate l Hw) as [r [Hr [Hrate Hpos]]].
    rewrite forallb_forall in Hall. pose proof (Hall l Hin) as Hfin.
    unfold Spec.finiteLoan in Hfin. rewrite Hr in Hfin.
    apply andb_true_iff in Hfin. destruct Hfin as [_ Hfin].
    rewrite Hrate, <- (finite_Num r Hfin). split; [exact Hr | exact Hpos]. }
  assert (Hmem : forall l r, In l loans -> withInterest l = true ->
            interestRate l = Some r ->
            exists x, r = Num x /\
              In x (map (fun l => valueOf (rateOf l)) (filter withInterest loans))).
  { intros l r Hin Hw Hr. rewrite forallb_forall in Hall. pose proof (Hall l Hin) as Hfin.
    unfold Spec.finiteLoan in Hfin. rewrite Hr in Hfin.
    apply andb_true_iff in Hfin. destruct Hfin as [_ Hfin].
    exists (valueOf r). split; [now apply finite_Num|].
    apply in_map_iff. exists l. split.
    - unfold rateOf. now rewrite Hr.
    - apply filter_In. split; assumption. }
  rewrite (rates_Num loans Hall).
  destruct (map (fun l => valueOf (rateOf l)) (filter withInterest loans)) as [|q qs] eqn:Eq.
  { exfalso. apply Hne. destruct (filter withInterest loans); [reflexivity | discriminate]. }
  destruct (minOf_Num q qs) as [m [Em [Hm Hlow]]].
  destruct (maxOf_Num q qs) as [M [EM [HM Hup]]].
  rewrite Em, EM.
  destruct (Hpick m Hm) as [l1 [Hl1 [Hr1 Hp1]]].
  destruct (Hpick M HM) as [l2 [Hl2 [Hr2 _]]].
  split; [now exists l1|]. split; [now exists l2|]. split; [exact Hp1|].
  intros l r Hin Hw Hr. destruct (Hmem l r Hin Hw Hr) as [x [-> Hx]].
  rewrite Forall_forall in Hlow, Hup.
  split; apply le_Num; [now apply Hlow | now apply Hup].
Qed.

Lemma interest_rates_ordered_witness :
  forallb Spec.finiteLoan Sample.loans = true /\ filter withInterest Sample.loans <> [] /\
  gt (ia_lowestRate (generateInterestAnalysis Sample.loans)) zero = true.
Proof.
  assert (Hne : filter withInterest Sample.loans <> []) by (vm_compute; discriminate).
  split; [reflexivity|]. split; [exact Hne|].
  exact (proj1 (proj2 (proj2
    (interest_rates_ordered Sample.loans eq_refl Hne)))).
Defined.

(** ** The range of the risk score *)

Lemma mul_Num_ofQ (s : Qc) (w : Q) : mul (Num s) (ofQ w) = Num (s * Q2Qc w).
Proof. reflexivity. Qed.

Lemma overdueScore_range (q : Qc) :
  Q2Qc 0 <= q ->
  exists s : Qc,
    Spec.overdueScore (Num q) = Num s /\ Q2Qc 0 <= s /\ s <= Q2Qc (inject_Z 100).
Proof.
  intros H0. unfold Spec.overdueScore, ofZ. cbn [mul]. rewrite min2_Num.
  destruct (Qclt_le_dec (Q2Qc (inject_Z 100)) (q * Q2Qc (inject_Z 2))) as [H | H].
  - exists (Q2Qc (inject_Z 100)). split; [reflexivity|]. split; [|apply Qcle_refl].
    now apply Qclt_le_weak.
  - exists (q * Q2Qc (inject_Z 2)). split; [reflexivity|]. split; [|exact H].
    clear - H0. qc2q. change (inject_Z 2) with (2 # 1)%Q. lra.
Qed.

Lemma concentrationScore_range (r : number) :
  exists s : Qc,
    Spec.concentrationScore r = Num s /\
    Q2Qc (inject_Z 20) <= s /\ s <= Q2Qc (inject_Z 80).
Proof.
  unfold Spec.concentrationScore, ofZ.
  destruct (gt r _); [|destruct (gt r _)]; eexists; (split; [reflexivity|]);
    split; vm_compute; discriminate.
Qed.

Lemma interestScore_range (r : number) :
  exists s : Qc,
    Spec.interestScore r = Num s /\
    Q2Qc (inject_Z 10) <= s /\ s <= Q2Qc (inject_Z 60).
Proof.
  unfold Spec.interestScore, ofZ.
  destruct (gt r _); [|destruct (gt r _)]; eexists; (split; [reflexivity|]);
    split; vm_compute; discriminate.
Qed.

Lemma velocityScore_range (r : number) :
  exists s : Qc,
    Spec.velocityScore r = Num s /\
    Q2Qc (inject_Z 20) <= s /\ s <= Q2Qc (inject_Z 70).
Proof.
  unfold Spec.velocityScore, ofZ.
  destruct (lt r _); [|destruct (lt r _)]; eexists; (split; [reflexivity|]);
    split; vm_compute; discriminate.
Qed.

Lemma sizeScore_range (r : number) :
  exists s : Qc,
    Spec.sizeScore r = Num s /\
    Q2Qc (inject_Z 10) <= s /\ s <= Q2Qc (inject_Z 40).
Proof.
  unfold Spec.sizeScore, ofZ.
  destruct (lt r _); [|destruct (lt r _)]; eexists; (split; [reflexivity|]);
    split; vm_compute; discriminate.
Qed.

Lemma round_range (q : Qc) (lo hi : Z) :
  Q2Qc (inject_Z lo) <= q + Q2Qc (1 # 2) -> q + Q2Qc (1 # 2) <= Q2Qc (inject_Z hi + (1 # 2)) ->
  exists z : Z, round (Num q) = ofZ z /\ (lo <= z <= hi)%Z.
Proof.
  intros Hlo Hhi. unfold round. eexists. split; [reflexivity|].
  set (x := q + Q2Qc (1 # 2)) in *.
  unfold Qcle, Q2Qc in Hlo, Hhi; cbn [this] in Hlo, Hhi.
  rewrite Qred_correct in Hlo, Hhi. split.
  - apply Qfloor_resp_le in Hlo. now rewrite Qfloor_Z in Hlo.
  - apply Qfloor_resp_le in Hhi.
    assert (E : Qfloor (inject_Z hi + (1 # 2)) = hi).
    { apply Z.le_antisymm.
      - assert (Hlt : (inject_Z hi + (1 # 2) < inject_Z (hi + 1))%Q).
        { rewrite inject_Z_plus. change (inject_Z 1) with 1%Q. lra. }
        pose proof (Qfloor_le (inject_Z hi + (1 # 2))) as Hf.
        pose proof (Qle_lt_trans _ _ _ Hf Hlt) as Hc.
        rewrite <- Zlt_Qlt in Hc. lia.
      - rewrite <- (Qfloor_Z hi) at 1. apply Qfloor_resp_le. lra. }
    now rewrite E in Hhi.
Qed.

(** X8.  For every list of loans, whatever its amounts and rates, every
    factor score of the risk assessment is a finite number and the
    overall risk is an integer from 12 to 77: the scale of 0 to 100 is
    never used in full, and the result is never [NaN]. *)
Theorem overall_risk_range (parse : string -> Date.time) (now : Z) (loans : list LoanModel) :
  let r := generateRiskAssessment parse now loans in
  Forall (fun f => isFinite (rf_score f) = true) (factors r) /\
  exists z : Z, overallRisk r = ofZ z /\ (12 <= z <= 77)%Z.
Proof.
  cbn zeta. unfold generateRiskAssessment.
  cbv beta iota zeta delta [factors overallRisk].
  rewrite weightedSum_five.
  change (rf_score (overdueFactor parse now loans))
    with (Spec.overdueScore (overdueRateOf parse now loans)).
  change (rf_score (concentrationFactor loans))
    with (Spec.concentrationScore (concentrationRateOf loans)).
  change (rf_score (interestFactor loans)) with (Spec.interestScore (noInterestRateOf loans)).
  change (rf_score (velocityFactor loans)) with (Spec.velocityScore (paymentRateOf loans)).
  change (rf_score (sizeFactor loans)) with (Spec.sizeScore (len loans)).
  destruct (percentOf_part (isOverdue parse now) loans) as [q [Hq [Hq0 _]]].
  assert (E0 : overdueRateOf parse now loans = Num q) by exact Hq.
  destruct (overdueScore_range q Hq0) as [s1 [E1 [L1 U1]]]. rewrite <- E0 in E1.
  destruct (concentrationScore_range (concentrationRateOf loans)) as [s2 [E2 [L2 U2]]].
  destruct (interestScore_range (noInterestRateOf loans)) as [s3 [E3 [L3 U3]]].
  destruct (velocityScore_range (paymentRateOf loans)) as [s4 [E4 [L4 U4]]].
  destruct (sizeScore_range (len loans)) as [s5 [E5 [L5 U5]]].
  split.
  - repeat constructor.
    + change (isFinite (Spec.overdueScore (overdueRateOf parse now loans)) = true).
      now rewrite E1.
    + change (isFinite (Spec.concentrationScore (concentrationRateOf loans)) = true).
      now rewrite E2.
    + change (isFinite (Spec.interestScore (noInterestRateOf loans)) = true).
      now rewrite E3.
    + change (isFinite (Spec.velocityScore (paymentRateOf loans)) = true).
      now rewrite E4.
    + change (isFinite (Spec.sizeScore (len loans)) = true).
      now rewrite E5.
  - rewrite E1, E2, E3, E4, E5.
    unfold Spec.weighted. rewrite !mul_Num_ofQ. cbn [add].
    apply round_range; clear - L1 U1 L2 U2 L3 U3 L4 U4 L5 U5; qc2q;
      change (inject_Z 20) with (20 # 1)%Q in *; change (inject_Z 80) with (80 # 1)%Q in *;
      change (inject_Z 10) with (10 # 1)%Q in *; change (inject_Z 60) with (60 # 1)%Q in *;
      change (inject_Z 70) with (70 # 1)%Q in *; change (inject_Z 40) with (40 # 1)%Q in *;
      change (inject_Z 12) with (12 # 1)%Q; change (inject_Z 77) with (77 # 1)%Q; lra.
Qed.

(** ** Payment trends: the counts *)

Lemma filter_length_mono {A : Type} (p q : A -> bool) (xs : list A) :
  (forall x, p x = true -> q x = true) ->
  (List.length (filter p xs) <= List.length (filter q xs))%nat.
Proof.
  intros H. induction xs as [|x xs IH]; [apply Nat.le_refl|].
  cbn [filter]. destruct (p x) eqn:Hp.
  - rewrite (H x Hp). cbn [List.length]. lia.
  - destruct (q x); cbn [List.length]; lia.
Qed.

Lemma le_ofNat (a b : nat) : (a <= b)%nat -> le (ofNat a) (ofNat b) = true.
Proof. intros H. unfold ofNat, ofZ. apply le_Num. now apply Qc_of_nat_le. Qed.

Lemma trendAt_payments (parse : string -> Date.time) (now : Z) (loans : list LoanModel)
    (i : nat) :
  pt_payments (trendAt parse now loans i)
  = len (paidSince parse now (nth i dayRanges 0%Z) loans).
Proof.
  unfold trendAt. destruct (0 <? i)%nat; [destruct (compareWithPrevious _ _)|];
    reflexivity.
Qed.

(** X9.  For every list of loans, whatever its amounts, the number of
    payments of the payment trends never decreases from one period to
    the next longer one, and the first period is always reported as
    stable with a change of 0, having no period to compare with. *)
Theorem payment_counts_nondecreasing (parse : string -> Date.time) (now : Z)
    (loans : list LoanModel) :
  let trends := generatePaymentTrends parse now loans in
  (forall (i : nat) (e1 e2 : PaymentTrend),
     nth_error trends i = Some e1 -> nth_error trends (S i) = Some e2 ->
     le (pt_payments e1) (pt_payments e2) = true) /\
  (forall e, nth_error trends 0 = Some e ->
     pt_trend e = stable /\ pt_changePercentage e = zero).
Proof.
  cbn zeta.
  assert (Hts : generatePaymentTrends parse now loans
                = [trendAt parse now loans 0; trendAt parse now loans 1;
                   trendAt parse now loans 2; trendAt parse now loans 3;
                   trendAt parse now loans 4]) by reflexivity.
  rewrite Hts. split.
  - intros i e1 e2 H1 H2.
    assert (Hi : (i < 4)%nat).
    { assert (Hn : nth_error [trendAt parse now loans 0; trendAt parse now loans 1;
                               trendAt parse now loans 2; trendAt parse now loans 3;
                               trendAt parse now loans 4] (S i) <> None) by congruence.
      apply nth_error_Some in Hn. cbn [List.length] in Hn. lia. }
    assert (E1 : e1 = trendAt parse now loans i).
    { do 4 (destruct i as [|i]; [cbn [nth_error] in H1; congruence|]). lia. }
    assert (E2 : e2 = trendAt parse now loans (S i)).
    { do 4 (destruct i as [|i]; [cbn [nth_error] in H2; congruence|]). lia. }
    subst e1 e2. rewrite !trendAt_payments. unfold len. apply le_ofNat.
    unfold paidSince. apply filter_length_mono. intros l.
    apply window_nested. now apply dayRanges_increasing.
  - intros e He. cbn [nth_error] in He. injection He as <-.
    split; reflexivity.
Qed.

Lemma payment_counts_nondecreasing_witness :
  pt_trend (trendAt Date.isoDay Sample.now Sample.loans 0) = stable /\
  pt_changePercentage (trendAt Date.isoDay Sample.now Sample.loans 0) = zero.
Proof.
  exact (proj2 (payment_counts_nondecreasing Date.isoDay Sample.now Sample.loans)
           (trendAt Date.isoDay Sample.now Sample.loans 0) eq_refl).
Defined.

(** ** Percentage change and the two periods *)

Lemma isZero_Num (q : Qc) : isZero (Num q) = true <-> q = Q2Qc 0.
Proof.
  unfold isZero, Qcsign. rewrite (Qceq_alt q (Q2Qc 0)).
  destruct (q ?= Q2Qc 0); split; congruence.
Qed.

(** X10.  [calculatePercentageChange] never divides by zero: against
    a previous value of 0 it reports 100 for every positive current
    value, however large, and 0 otherwise.  Against a positive previous
    value the change is at least 0 when the current value is at least
    the previous one, and at most 0 when it is at most the previous
    one. *)
Theorem percentage_change_signs (current previous : Qc) :
  (previous = Q2Qc 0 -> Q2Qc 0 < current ->
   calculatePercentageChange (Num current) (Num previous) = ofZ 100) /\
  (previous = Q2Qc 0 -> current <= Q2Qc 0 ->
   calculatePercentageChange (Num current) (Num previous) = zero) /\
  (Q2Qc 0 < previous -> previous <= current ->
   ge (calculatePercentageChange (Num current) (Num previous)) zero = true) /\
  (Q2Qc 0 < previous -> current <= previous ->
   le (calculatePercentageChange (Num current) (Num previous)) zero = true).
Proof.
  unfold calculatePercentageChange.
  destruct (isZero (Num previous)) eqn:Hz.
  - apply isZero_Num in Hz. subst previous.
    split; [|split; [|split]].
    + intros _ Hpos.
      assert (Ht : gt (Num current) zero = true) by (unfold gt, zero, ofZ; now apply lt_Num).
      now rewrite Ht.
    + intros _ Hle. destruct (gt (Num current) zero) eqn:Hc; [|reflexivity].
      unfold gt, zero, ofZ in Hc. apply lt_Num in Hc.
      exfalso. exact (Qcle_not_lt _ _ Hle Hc).
    + intros Habs. exfalso. exact (Qclt_not_eq _ _ Habs eq_refl).
    + intros Habs. exfalso. exact (Qclt_not_eq _ _ Habs eq_refl).
  - assert (Hne : previous <> Q2Qc 0).
    { intros E. apply isZero_Num in E. congruence. }
    split; [intros E; congruence|]. split; [intros E; congruence|].
    split.
    + intros Hpos Hle. rewrite (change_value previous current Hpos).
      apply ge_zero_Num. now apply Qc_change_nonneg.
    + intros Hpos Hle. rewrite (change_value previous current Hpos).
      unfold zero, ofZ. apply le_Num. clear - Hpos Hle. qc2q.
      assert (Hinv : (0 < / previous)%Q) by now apply Qinv_lt_0_compat.
      assert (Hd : (0 <= previous + - current)%Q) by lra.
      assert (Hm : (0 <= (previous + - current) * / previous)%Q).
      { apply Qmult_le_0_compat; [exact Hd | now apply Qlt_le_weak]. }
      setoid_replace ((current + - previous) * / previous * (100 # 1))%Q
        with (- ((previous + - current) * / previous) * (100 # 1))%Q by ring.
      set (x := ((previous + - current) * / previous)%Q) in *. lra.
Qed.

Lemma percentage_change_signs_witness :
  calculatePercentageChange (ofZ 5000) zero = ofZ 100.
Proof.
  apply (proj1 (percentage_change_signs (Q2Qc (inject_Z 5000)) (Q2Qc 0))); reflexivity.
Defined.

(** X11.  In the performance comparison no loan is counted in both
    periods, and a loan of the list is counted in one of them exactly
    when its repayment date parses to an instant that is not more than
    180 days before now: a loan due in the future counts in the current
    period, a loan with an unreadable date in neither. *)
Theorem comparison_periods (parse : string -> Date.time) (now : Z) (loans : list LoanModel) :
  (forall l, In l (currentLoansOf parse now loans) ->
             In l (previousLoansOf parse now loans) -> False) /\
  (forall l, In l loans ->
     (In l (currentLoansOf parse now loans) \/ In l (previousLoansOf parse now loans) <->
      exists t, parse (repaymentDate l) = Some t /\ (now - 180 * 86400000 <= t)%Z)) /\
  (forall l t, In l loans -> parse (repaymentDate l) = Some t -> (now <= t)%Z ->
     In l (currentLoansOf parse now loans)) /\
  ps_loans (currentPeriod (generatePerformanceComparison parse now loans))
  = len (currentLoansOf parse now loans) /\
  le (add (len (currentLoansOf parse now loans)) (len (previousLoansOf parse now loans)))
     (len loans) = true.
Proof.
  unfold currentLoansOf, previousLoansOf, daysAgo.
  assert (Hex : forall l,
            Date.ge (parse (repaymentDate l)) (Some (now - 90 * 24 * 60 * 60 * 1000)%Z) = true ->
            Date.ge (parse (repaymentDate l)) (Some (now - 180 * 24 * 60 * 60 * 1000)%Z)
            && Date.lt (parse (repaymentDate l)) (Some (now - 90 * 24 * 60 * 60 * 1000)%Z) = true ->
            False).
  { intros l H1 H2. apply andb_true_iff in H2. destruct H2 as [_ H2].
    unfold Date.ge, Date.lt in *. destruct (parse (repaymentDate l)); [|discriminate].
    apply Z.leb_le in H1. apply Z.ltb_lt in H2. lia. }
  split; [|split; [|split; [|split]]].
  - intros l H1 H2. apply filter_In in H1. apply filter_In in H2.
    exact (Hex l (proj2 H1) (proj2 H2)).
  - intros l Hl. rewrite !filter_In. unfold Date.ge, Date.lt.
    destruct (parse (repaymentDate l)) as [t|].
    + split.
      * intros [[_ H] | [_ H]]; exists t; (split; [reflexivity|]).
        -- apply Z.leb_le in H. lia.
        -- apply andb_true_iff in H. destruct H as [H _]. apply Z.leb_le in H. lia.
      * intros [t' [E H]]. injection E as <-.
        destruct (Z.leb_spec (now - 90 * 24 * 60 * 60 * 1000) t) as [H1 | H1].
        -- left. split; [exact Hl | reflexivity].
        -- right. split; [exact Hl|]. apply andb_true_iff. split.
           ++ apply Z.leb_le. lia.
           ++ apply Z.ltb_lt. lia.
    + split.
      * intros [[_ H] | [_ H]]; discriminate.
      * intros [t [E _]]. discriminate.
  - intros l t Hl Ht Hle. apply filter_In. split; [exact Hl|].
    unfold Date.ge. rewrite Ht. apply Z.leb_le. lia.
  - reflexivity.
  - unfold len. rewrite add_ofNat. apply le_ofNat.
    induction loans as [|l loans IH]; [apply Nat.le_refl|].
    cbn [filter].
    destruct (Date.ge (parse (repaymentDate l)) (Some (now - 90 * 24 * 60 * 60 * 1000)%Z)) eqn:H1;
      destruct (Date.ge (parse (repaymentDate l)) (Some (now - 180 * 24 * 60 * 60 * 1000)%Z)
                && Date.lt (parse (repaymentDate l)) (Some (now - 90 * 24 * 60 * 60 * 1000)%Z)) eqn:H2;
      cbn [List.length]; try lia.
    exfalso. exact (Hex l H1 H2).
Qed.

Lemma comparison_periods_witness :
  In Sample.dueTomorrow (currentLoansOf Date.isoDay Sample.now Sample.loans).
Proof.
  apply (proj1 (proj2 (proj2 (comparison_periods Date.isoDay Sample.now Sample.loans)))
           Sample.dueTomorrow 1750032000000%Z).
  - right. left. reflexivity.
  - reflexivity.
  - unfold Sample.now. lia.
Defined.

(** ** Lender analysis: the groups cover the loans *)

Lemma list_sum_perm (xs ys : list nat) : Permutation xs ys -> list_sum xs = list_sum ys.
Proof. induction 1; cbn [list_sum fold_right] in *; unfold list_sum in *; cbn; lia. Qed.

Lemma list_sum_map_add {A : Type} (f g : A -> nat) (xs : list A) :
  list_sum (map (fun x => f x + g x)%nat xs) = (list_sum (map f xs) + list_sum (map g xs))%nat.
Proof.
  induction xs as [|x xs IH]; [reflexivity|].
  cbn [map]. change (list_sum (?a :: ?l)) with (a + list_sum l)%nat.
  change (list_sum (f x :: map f xs)) with (f x + list_sum (map f xs))%nat.
  change (list_sum (g x :: map g xs)) with (g x + list_sum (map g xs))%nat.
  rewrite IH. lia.
Qed.

Lemma key_matches_once (n : string) (ks : list string) :
  NoDup ks ->
  list_sum (map (fun k => if String.eqb n k then 1 else 0)%nat ks)
  = if in_dec string_dec n ks then 1%nat else 0%nat.
Proof.
  induction 1 as [|k ks Hk Hnd IH]; [reflexivity|].
  cbn [map]. change (list_sum (?a :: ?l)) with (a + list_sum l)%nat. rewrite IH.
  destruct (String.eqb n k) eqn:E.
  - apply String.eqb_eq in E. subst k.
    destruct (in_dec string_dec n ks) as [Hin | Hin]; [contradiction|].
    destruct (in_dec string_dec n (n :: ks)) as [_ | Hout]; [reflexivity|].
    exfalso. apply Hout. now left.
  - apply String.eqb_neq in E.
    destruct (in_dec string_dec n ks) as [Hin | Hin];
      destruct (in_dec string_dec n (k :: ks)) as [Hin' | Hin']; try reflexivity.
    + exfalso. apply Hin'. now right.
    + exfalso. destruct Hin' as [-> | Hin']; [now apply E | now apply Hin].
Qed.

(** Counting through the groups of distinct names that cover the loans
    counts every loan once. *)
Lemma group_counts (keep : LoanModel -> bool) (ks : list string) (loans : list LoanModel) :
  NoDup ks -> (forall l, In l loans -> In (lenderName l) ks) ->
  list_sum (map (fun k => List.length (filter keep (Spec.groupOf k loans))) ks)
  = List.length (filter keep loans).
Proof.
  intros Hnd. induction loans as [|l loans IH]; intros Hcover.
  - cbn [Spec.groupOf filter List.length]. induction ks as [|k ks IHk]; [reflexivity|].
    inversion Hnd; subst. cbn [map]. change (list_sum (?a :: ?x)) with (a + list_sum x)%nat.
    now rewrite IHk.
  - assert (Hstep : forall k,
              List.length (filter keep (Spec.groupOf k (l :: loans)))
              = (List.length (filter keep (Spec.groupOf k loans))
                 + (if String.eqb (lenderName l) k then (if keep l then 1 else 0) else 0))%nat).
    { intros k. unfold Spec.groupOf. cbn [filter].
      destruct (String.eqb (lenderName l) k); [|lia].
      cbn [filter]. destruct (keep l); cbn [List.length]; lia. }
    rewrite (map_ext _ _ Hstep), list_sum_map_add.
    rewrite IH by (intros l' Hl'; apply Hcover; now right).
    cbn [filter]. destruct (keep l).
    + rewrite (key_matches_once (lenderName l) ks Hnd).
      destruct (in_dec string_dec (lenderName l) ks) as [_ | Hout].
      * cbn [List.length]. lia.
      * exfalso. apply Hout. apply Hcover. now left.
    + replace (list_sum (map (fun k => if String.eqb (lenderName l) k then 0 else 0)%nat ks))
        with 0%nat; [lia|].
      clear. induction ks as [|k ks IHk]; [reflexivity|].
      cbn [map]. change (list_sum (?a :: ?x)) with (a + list_sum x)%nat.
      rewrite <- IHk. now destruct (String.eqb (lenderName l) k).
Qed.

(** The entries of the lender analysis are, up to their order, the
    entries of the groups of distinct names that cover the loans. *)
Lemma lender_analysis_shape (parse : string -> Date.time) (now : Z)
    (loans : list LoanModel) :
  exists ks : list string,
    NoDup ks /\ (forall l, In l loans -> In (lenderName l) ks) /\
    Permutation (generateLenderAnalysis parse now loans)
      (map (fun k => lenderEntry (k, dataOf parse now (Spec.groupOf k loans))) ks).
Proof.
  destruct (groupByLender_spec parse now loans) as [Hnd Hget].
  unfold generateLenderAnalysis.
  set (m := groupByLender parse now loans) in *.
  exists (keys m). split; [exact Hnd|]. split.
  - intros l Hl. pose proof (Hget (lenderName l)) as Hk. unfold groupEntry in Hk.
    assert (Hg : In l (Spec.groupOf (lenderName l) loans)).
    { unfold Spec.groupOf. apply filter_In. split; [exact Hl | apply String.eqb_refl]. }
    destruct (Spec.groupOf (lenderName l) loans) as [|l0 g]; [destruct Hg|].
    apply mapGet_In in Hk. unfold keys.
    change (lenderName l) with (fst (lenderName l, dataOf parse now (l0 :: g))).
    now apply in_map.
  - eapply Permutation_trans; [apply sortBy_perm|].
    assert (Hm : map lenderEntry m
                 = map (fun k => lenderEntry (k, dataOf parse now (Spec.groupOf k loans)))
                     (keys m)).
    { unfold keys. rewrite map_map. apply map_ext_in. intros [k d] Hin.
      apply (In_mapGet m k d Hnd) in Hin. rewrite Hget in Hin. unfold groupEntry in Hin.
      cbn [fst]. destruct (Spec.groupOf k loans) as [|l0 g]; [discriminate|].
      now injection Hin as <-. }
    rewrite Hm. apply Permutation_refl.
Qed.

Lemma sumOf_ofNat (ns : list nat) : sumOf (map ofNat ns) = ofNat (list_sum ns).
Proof.
  unfold sumOf. change zero with (ofNat 0).
  assert (H : forall a, fold_left add (map ofNat ns) (ofNat a) = ofNat (a + list_sum ns)).
  { induction ns as [|n ns IH]; intros a; cbn [map fold_left].
    - f_equal. cbn. lia.
    - rewrite add_ofNat, IH. f_equal.
      change (list_sum (n :: ns)) with (n + list_sum ns)%nat. lia. }
  apply H.
Qed.

Lemma filter_all {A : Type} (xs : list A) : filter (fun _ => true) xs = xs.
Proof. induction xs as [|x xs IH]; cbn [filter]; congruence. Qed.

Section LenderTotals.

Variable parse : string -> Date.time.
Variable now : Z.
Variable loans : list LoanModel.

(** A count that every entry holds for its group adds up, over the
    entries, to the count for all loans. *)
Lemma count_field_sum (field : LenderAnalysis -> number) (keep : LoanModel -> bool) :
  (forall k, field (lenderEntry (k, dataOf parse now (Spec.groupOf k loans)))
             = len (filter keep (Spec.groupOf k loans))) ->
  sumOf (map field (generateLenderAnalysis parse now loans)) = len (filter keep loans).
Proof.
  intros Hfield.
  destruct (lender_analysis_shape parse now loans) as [ks [Hnd [Hcover Hperm]]].
  set (analysis := generateLenderAnalysis parse now loans) in *.
  set (g := fun e : LenderAnalysis =>
              List.length (filter keep (Spec.groupOf (la_name e) loans))).
  assert (Hmap : map field analysis = map ofNat (map g analysis)).
  { rewrite map_map. apply map_ext_in. intros e He.
    apply (Permutation_in _ Hperm) in He. apply in_map_iff in He.
    destruct He as [k [<- _]]. rewrite Hfield. reflexivity. }
  rewrite Hmap, sumOf_ofNat. unfold len. f_equal.
  rewrite (list_sum_perm _ _ (Permutation_map g Hperm)).
  rewrite map_map. unfold g. cbn [lenderEntry la_name].
  now apply group_counts.
Qed.

End LenderTotals.

(** X12.  The entries of the lender analysis account for every loan
    once: their loan counts, paid counts and overdue counts add up to
    the total, paid and overdue counts of the overview. *)
Theorem lender_analysis_totals (parse : string -> Date.time) (now : Z)
    (loans : list LoanModel) :
  let analysis := generateLenderAnalysis parse now loans in
  let o := generateOverviewAnalytics parse now loans in
  sumOf (map la_totalLoans analysis) = totalLoans o /\
  sumOf (map la_paidLoans analysis) = paidLoans o /\
  sumOf (map la_overdueLoans analysis) = overdueLoans o.
Proof.
  cbn zeta. unfold generateOverviewAnalytics.
  cbv beta iota zeta delta [totalLoans paidLoans overdueLoans].
  split; [|split].
  - rewrite <- (filter_all loans) at 2. apply count_field_sum. intros k.
    cbn [lenderEntry la_totalLoans].
    destruct (dataOf_fields parse now (Spec.groupOf k loans)) as [H1 _].
    now rewrite H1, filter_all.
  - apply count_field_sum. intros k. cbn [lenderEntry la_paidLoans].
    now destruct (dataOf_fields parse now (Spec.groupOf k loans)) as [_ [_ [H3 _]]].
  - apply count_field_sum. intros k. cbn [lenderEntry la_overdueLoans].
    now destruct (dataOf_fields parse now (Spec.groupOf k loans)) as [_ [_ [_ H4]]].
Qed.

(** ** The loan service over the loans file *)


















(** ** The views of the loan list *)

(** X17.  In the list view, the loans due this week are among the loans
    due this month, and those are among the pending loans; the paid, the
    pending and the overdue loans together are all the loans, each one
    once; an unknown filter shows every loan. *)
Theorem filterLoans_views (parse : string -> Date.time) (now : Z) (loans : list LoanModel) :
  (forall l, In l (filterLoans parse now loans FilterThisWeek) ->
             In l (filterLoans parse now loans FilterThisMonth)) /\
  (forall l, In l (filterLoans parse now loans FilterThisMonth) ->
             In l (filterLoans parse now loans FilterPending)) /\
  (List.length (filterLoans parse now loans FilterPaid)
   + List.length (filterLoans parse now loans FilterPending)
   + List.length (filterLoans parse now loans FilterOverdue))%nat = List.length loans /\
  filterLoans parse now loans FilterOther = loans.
Proof.
  unfold filterLoans. split; [|split; [|split; [|reflexivity]]].
  - intros l Hl. apply filter_In in Hl. apply filter_In. destruct Hl as [Hin H].
    split; [exact Hin|]. cbn zeta in *.
    apply andb_true_iff in H. destruct H as [H Hp].
    apply andb_true_iff in H. destruct H as [Hw Hn].
    rewrite Hp, Hn, !andb_true_r. unfold Date_le, Date.ge in *.
    destruct (parse (repaymentDate l)); [|discriminate].
    apply Z.leb_le in Hw. apply Z.leb_le. lia.
  - intros l Hl. apply filter_In in Hl. apply filter_In. destruct Hl as [Hin H].
    split; [exact Hin|]. cbn zeta in *.
    apply andb_true_iff in H. destruct H as [H Hp].
    apply andb_true_iff in H. destruct H as [_ Hn].
    rewrite Hp. cbn [andb]. apply negb_true_iff in Hp.
    unfold isOverdue, Date.lt, Date.ge in *. rewrite Hp. cbn [negb]. rewrite andb_true_r.
    destruct (parse (repaymentDate l)); [|discriminate].
    apply Z.leb_le in Hn. apply negb_true_iff. apply Z.ltb_ge. exact Hn.
  - induction loans as [|l loans IH]; [reflexivity|].
    cbn [filter]. destruct (isPaid l) eqn:Hp.
    + rewrite (paid_overdue_false parse now l Hp). cbn [negb andb List.length]. lia.
    + cbn [negb andb]. destruct (isOverdue parse now l); cbn [negb List.length]; lia.
Qed.

Lemma filterLoans_views_witness :
  In Sample.dueTomorrow (filterLoans Date.isoDay Sample.now Sample.loans FilterPending).
Proof.
  apply (proj1 (proj2 (filterLoans_views Date.isoDay Sample.now Sample.loans))).
  apply (proj1 (filterLoans_views Date.isoDay Sample.now Sample.loans)).
  unfold filterLoans. apply filter_In. split; [right; left; reflexivity | reflexivity].
Defined.

(** X18.  In the export, asking for the loans that are both paid and
    overdue gives no loan, whatever the list; asking for unpaid overdue
    loans gives the overdue loans, the first filter adding nothing; and
    without filters all the loans are exported. *)
Theorem exportFilterLoans_paid_overdue (parse : string -> Date.time) (now : Z)
    (loans : list LoanModel) (key : option SortKey) (order : option SortOrder) :
  exportFilterLoans parse now loans
    {| filterPaid := Some true; filterOverdue := Some true;
       sortBy_ := key; sortOrder := order |} = [] /\
  exportFilterLoans parse now loans
    {| filterPaid := Some false; filterOverdue := Some true;
       sortBy_ := key; sortOrder := order |}
  = filter (isOverdue parse now) loans /\
  exportFilterLoans parse now loans
    {| filterPaid := None; filterOverdue := None; sortBy_ := key; sortOrder := order |}
  = loans.
Proof.
  unfold exportFilterLoans. cbn [filterPaid filterOverdue].
  split; [|split; [|reflexivity]].
  - induction loans as [|l loans IH]; [reflexivity|].
    cbn [filter]. destruct (isPaid l) eqn:Hp; cbn [Bool.eqb]; [|exact IH].
    cbn [filter]. rewrite (paid_overdue_false parse now l Hp). cbn [Bool.eqb]. exact IH.
  - induction loans as [|l loans IH]; [reflexivity|].
    cbn [filter]. destruct (isPaid l) eqn:Hp; cbn [Bool.eqb].
    + rewrite (paid_overdue_false parse now l Hp). exact IH.
    + cbn [filter]. destruct (isOverdue parse now l); cbn [Bool.eqb]; [f_equal|]; exact IH.
Qed.

(** ** Sorting with a comparator *)

Section GenericSort.

Context {A : Type}.
Variable compareFn : A -> A -> number.
Variable ordered : A -> A -> Prop.
Variable proper : A -> Prop.

Hypothesis before : forall x y, proper x -> proper y ->
  lt (compareFn x y) zero = true -> ordered x y.
Hypothesis after : forall x y, proper x -> proper y ->
  lt (compareFn x y) zero = false -> ordered y x.
Hypothesis ordered_trans : forall x y z, ordered x y -> ordered y z -> ordered x z.

Lemma insertBy_sorted (x : A) (l : list A) :
  proper x -> Forall proper l -> StronglySorted ordered l ->
  StronglySorted ordered (insertBy compareFn x l).
Proof.
  intros Hx Hl Hs. induction l as [|y l IH]; cbn [insertBy].
  - repeat constructor.
  - inversion Hl as [|? ? Hy Hl']; subst. inversion Hs as [|? ? Hs' Hall]; subst.
    destruct (lt (compareFn x y) zero) eqn:Hc.
    + constructor; [exact Hs|].
      assert (Hxy : ordered x y) by now apply before.
      constructor; [exact Hxy|].
      eapply Forall_impl; [|exact Hall]. intros z Hyz. exact (ordered_trans _ _ _ Hxy Hyz).
    + constructor; [now apply IH|].
      apply (Permutation_Forall (Permutation_sym (insertBy_perm compareFn x l))).
      constructor; [|exact Hall]. now apply after.
Qed.

Lemma sortBy_sorted (l : list A) :
  Forall proper l -> StronglySorted ordered (sortBy compareFn l).
Proof.
  unfold sortBy.
  assert (H : forall acc, Forall proper acc -> StronglySorted ordered acc ->
                          Forall proper l ->
                          StronglySorted ordered
                            (fold_left (fun acc x => insertBy compareFn x acc) l acc)).
  { induction l as [|x l IH]; intros acc Hacc Hs Hl; cbn [fold_left]; [exact Hs|].
    inversion Hl as [|? ? Hx Hl']; subst. apply IH.
    - apply (Permutation_Forall (Permutation_sym (insertBy_perm compareFn x acc))).
      now constructor.
    - now apply insertBy_sorted.
    - exact Hl'. }
  intros Hl. apply H; [constructor | constructor | exact Hl].
Qed.

End GenericSort.

(** A comparator that never answers below 0 leaves the list as it is. *)
Lemma sortBy_never_below {A : Type} (compareFn : A -> A -> number) (l : list A) :
  (forall x y, lt (compareFn x y) zero = false) -> sortBy compareFn l = l.
Proof.
  intros H. unfold sortBy.
  assert (Hins : forall x acc, insertBy compareFn x acc = acc ++ [x]).
  { intros x acc. induction acc as [|y acc IH]; cbn [insertBy app]; [reflexivity|].
    now rewrite H, IH. }
  assert (Hfold : forall acc, fold_left (fun acc x => insertBy compareFn x acc) l acc = acc ++ l).
  { induction l as [|x l IH]; intros acc; cbn [fold_left].
    - now rewrite app_nil_r.
    - rewrite IH, Hins, <- app_assoc. reflexivity. }
  apply (Hfold []).
Qed.

Lemma lt_implies_le (x y : number) : lt x y = true -> le x y = true.
Proof.
  unfold lt, le. destruct (cmp x y) as [[| |]|]; (discriminate || reflexivity).
Qed.

Lemma not_lt_le (x y : number) :
  isNaN x = false -> isNaN y = false -> lt x y = false -> le y x = true.
Proof.
  destruct x as [a| | |], y as [b| | |]; try discriminate; intros _ _;
    try reflexivity; try (intros H; discriminate H).
  intros H. apply le_Num. apply Qcnot_lt_le. intros Hlt.
  apply lt_Num in Hlt. congruence.
Qed.

Lemma le_trans (x y z : number) : le x y = true -> le y z = true -> le x z = true.
Proof. intros H1 H2. exact (ge_trans z y x H2 H1). Qed.

Lemma orderResult_below (below above : bool) (options : ExportOptions) :
  lt (orderResult below above options) zero
  = match sortOrder options with
    | Some Desc => negb below && above
    | _ => below
    end.
Proof.
  unfold orderResult. destruct (sortOrder options) as [[|]|], below, above; reflexivity.
Qed.

Section ExportSort.

Variable parse : string -> Date.time.
Variable now : Z.
Variable toLowerCase : string -> string.
Variable stringLt : string -> string -> bool.

(** X19.  Sorting the export by amount returns the same loans in
    another order, whatever the totals.  When no total is [NaN] the
    result is in descending order of total for the order ['desc'] and in
    ascending order for ['asc'] and for no order at all. *)
Theorem export_sort_by_amount (loans : list LoanModel) (options : ExportOptions) :
  sortBy_ options = Some SortAmount ->
  let sorted := sortLoans parse now toLowerCase stringLt loans options in
  Permutation sorted loans /\
  (Forall (fun l => isNaN (calculateTotalWithInterest l) = false) loans ->
   (sortOrder options = Some Desc ->
    StronglySorted
      (fun a b => ge (calculateTotalWithInterest a) (calculateTotalWithInterest b) = true)
      sorted) /\
   (sortOrder options <> Some Desc ->
    StronglySorted
      (fun a b => le (calculateTotalWithInterest a) (calculateTotalWithInterest b) = true)
      sorted)).
Proof.
  intros Hkey. cbn zeta. unfold sortLoans. rewrite Hkey.
  split; [apply sortBy_perm|]. intros Hnum. split.
  - intros Hdesc.
    apply (sortBy_sorted _ _ (fun l => isNaN (calculateTotalWithInterest l) = false));
      [| | | exact Hnum].
    + intros x y Hx Hy. unfold compareByAmount. rewrite orderResult_below, Hdesc.
      intros H. apply andb_true_iff in H. destruct H as [_ H].
      unfold ge. apply lt_implies_le. exact H.
    + intros x y Hx Hy. unfold compareByAmount. rewrite orderResult_below, Hdesc.
      intros H. apply andb_false_iff in H. unfold ge. destruct H as [H | H].
      * apply negb_false_iff in H. now apply lt_implies_le.
      * now apply not_lt_le.
    + intros x y z H1 H2. exact (ge_trans _ _ _ H1 H2).
  - intros Hasc.
    apply (sortBy_sorted _ _ (fun l => isNaN (calculateTotalWithInterest l) = false));
      [| | | exact Hnum].
    + intros x y Hx Hy. unfold compareByAmount. rewrite orderResult_below.
      destruct (sortOrder options) as [[|]|]; try congruence; apply lt_implies_le.
    + intros x y Hx Hy. unfold compareByAmount. rewrite orderResult_below.
      destruct (sortOrder options) as [[|]|]; try congruence; now apply not_lt_le.
    + intros x y z H1 H2. exact (le_trans _ _ _ H1 H2).
Qed.

Lemma statusRank_number (l : LoanModel) : isNaN (statusRank parse now l) = false.
Proof.
  unfold statusRank. destruct (isPaid l); [reflexivity|].
  destruct (isOverdue parse now l); reflexivity.
Qed.

(** X20.  Sorting the export by status in ascending order (or with no
    order given) puts the paid loans first, then the pending, then the
    overdue ones, for every list of loans; without a sort key, and with
    a key that is none of the four known ones, the loans keep their
    order. *)
Theorem export_sort_by_status (loans : list LoanModel) (options : ExportOptions) :
  (sortBy_ options = Some SortStatus -> sortOrder options <> Some Desc ->
   Permutation (sortLoans parse now toLowerCase stringLt loans options) loans /\
   StronglySorted
     (fun a b => le (statusRank parse now a) (statusRank parse now b) = true)
     (sortLoans parse now toLowerCase stringLt loans options)) /\
  (sortBy_ options = None ->
   sortLoans parse now toLowerCase stringLt loans options = loans) /\
  (sortBy_ options = Some SortUnknown ->
   sortLoans parse now toLowerCase stringLt loans options = loans).
Proof.
  unfold sortLoans. split; [|split].
  - intros Hkey Hasc. rewrite Hkey. split; [apply sortBy_perm|].
    apply (sortBy_sorted _ _ (fun _ => True)).
    + intros x y _ _. unfold compareByStatus. rewrite orderResult_below.
      destruct (sortOrder options) as [[|]|]; try congruence; apply lt_implies_le.
    + intros x y _ _. unfold compareByStatus. rewrite orderResult_below.
      destruct (sortOrder options) as [[|]|]; try congruence;
        apply not_lt_le; apply statusRank_number.
    + intros x y z H1 H2. exact (le_trans _ _ _ H1 H2).
    + apply Forall_forall. intros; exact I.
  - intros Hkey. now rewrite Hkey.
  - intros Hkey. rewrite Hkey. apply sortBy_never_below. reflexivity.
Qed.

End ExportSort.

Lemma export_sort_by_amount_witness :
  StronglySorted
    (fun a b => ge (calculateTotalWithInterest a) (calculateTotalWithInterest b) = true)
    (sortLoans Date.isoDay Sample.now (fun s => s) (fun _ _ => false) Sample.loans
       {| filterPaid := None; filterOverdue := None;
          sortBy_ := Some SortAmount; sortOrder := Some Desc |}).
Proof.
  refine (proj1 (proj2 (export_sort_by_amount Date.isoDay Sample.now
                          (fun s => s) (fun _ _ => false) Sample.loans
                          {| filterPaid := None; filterOverdue := None;
                             sortBy_ := Some SortAmount; sortOrder := Some Desc |}
                          eq_refl) _) eq_refl).
  repeat (apply Forall_cons; [vm_compute; reflexivity|]). apply Forall_nil.
Defined.

Lemma export_sort_by_status_witness :
  StronglySorted
    (fun a b => le (statusRank Date.isoDay Sample.now a)
                   (statusRank Date.isoDay Sample.now b) = true)
    (sortLoans Date.isoDay Sample.now (fun s => s) (fun _ _ => false) Sample.loans
       {| filterPaid := None; filterOverdue := None;
          sortBy_ := Some SortStatus; sortOrder := Some Asc |}).
Proof.
  refine (proj2 (proj1 (export_sort_by_status Date.isoDay Sample.now
                          (fun s => s) (fun _ _ => false) Sample.loans
                          {| filterPaid := None; filterOverdue := None;
                             sortBy_ := Some SortStatus; sortOrder := Some Asc |})
                   eq_refl _)).
  discriminate.
Defined.

(** *** The list view sorted *)

Lemma asc_before (x y : number) :
  isNaN x = false -> isNaN y = false ->
  lt (sub x y) zero = true -> le x y = true.
Proof. intros Hx Hy H. exact (desc_before y x Hy Hx H). Qed.

Lemma asc_after (x y : number) :
  isNaN x = false -> isNaN y = false ->
  lt (sub x y) zero = false -> le y x = true.
Proof. intros Hx Hy H. exact (desc_after y x Hy Hx H). Qed.

Lemma getTime_number (d : Date.time) : Date.hasTime d = true -> isNaN (getTime d) = false.
Proof. destruct d; [reflexivity | discriminate]. Qed.

(** X21.  [sortLoans] of the list view returns the same loans in
    another order, and in the same order for an unknown key.  When no
    total is [NaN] the key ['amountDesc'] gives descending and
    ['amountAsc'] ascending totals; when every repayment date can be
    read the key ['dueDate'] gives ascending due times. *)
Theorem controller_sort_orders (parse : string -> Date.time) (now : Z)
    (localeCompare : string -> string -> number) (loans : list LoanModel) :
  (forall key, Permutation (Controller.sortLoans parse now localeCompare loans key) loans) /\
  Controller.sortLoans parse now localeCompare loans SortOther = loans /\
  (Forall (fun l => isNaN (calculateTotalWithInterest l) = false) loans ->
   StronglySorted
     (fun a b => ge (calculateTotalWithInterest a) (calculateTotalWithInterest b) = true)
     (Controller.sortLoans parse now localeCompare loans SortAmountDesc) /\
   StronglySorted
     (fun a b => le (calculateTotalWithInterest a) (calculateTotalWithInterest b) = true)
     (Controller.sortLoans parse now localeCompare loans SortAmountAsc)) /\
  (Forall (fun l => Date.hasTime (parse (repaymentDate l)) = true) loans ->
   StronglySorted
     (fun a b => le (getTime (parse (repaymentDate a)))
                    (getTime (parse (repaymentDate b))) = true)
     (Controller.sortLoans parse now localeCompare loans SortDueDate)).
Proof.
  split; [|split; [reflexivity|split]].
  - intros key. destruct key; cbn [Controller.sortLoans];
      try apply sortBy_perm. apply Permutation_refl.
  - intros Hnum. cbn [Controller.sortLoans]. split.
    + apply (sortBy_sorted _ _ (fun l => isNaN (calculateTotalWithInterest l) = false));
        [| | | exact Hnum].
      * intros x y Hx Hy. now apply desc_before.
      * intros x y Hx Hy. now apply desc_after.
      * intros x y z H1 H2. exact (ge_trans _ _ _ H1 H2).
    + apply (sortBy_sorted _ _ (fun l => isNaN (calculateTotalWithInterest l) = false));
        [| | | exact Hnum].
      * intros x y Hx Hy. now apply asc_before.
      * intros x y Hx Hy. now apply asc_after.
      * intros x y z H1 H2. exact (le_trans _ _ _ H1 H2).
  - intros Hdates. cbn [Controller.sortLoans].
    apply (sortBy_sorted _ _ (fun l => Date.hasTime (parse (repaymentDate l)) = true));
      [| | | exact Hdates].
    + intros x y Hx Hy. apply asc_before; now apply getTime_number.
    + intros x y Hx Hy. apply asc_after; now apply getTime_number.
    + intros x y z H1 H2. exact (le_trans _ _ _ H1 H2).
Qed.

Lemma controller_sort_orders_witness :
  StronglySorted
    (fun a b => le (getTime (Date.isoDay (repaymentDate a)))
                   (getTime (Date.isoDay (repaymentDate b))) = true)
    (Controller.sortLoans Date.isoDay Sample.now (fun _ _ => zero) Sample.loans SortDueDate).
Proof.
  apply (proj2 (proj2 (proj2 (controller_sort_orders Date.isoDay Sample.now
                                (fun _ _ => zero) Sample.loans)))).
  repeat (apply Forall_cons; [vm_compute; reflexivity|]). apply Forall_nil.
Defined.

(** *** A loan entered through the menu *)





(** *** The monthly breakdown *)

Lemma mapGet_set {V : Type} (k : string) (v : V) (m : smap V) (k' : string) :
  mapGet k' (mapSet k v m) = if String.eqb k' k then Some v else mapGet k' m.
Proof.
  unfold mapSet, mapHas. destruct (mapGet k m) as [v0|] eqn:E.
  - rewrite mapGet_update, E. now destruct (String.eqb k' k).
  - rewrite mapGet_app. cbn [mapGet]. destruct (String.eqb k' k) eqn:E'.
    + apply String.eqb_eq in E'. subst. now rewrite E.
    + now destruct (mapGet k' m).
Qed.

Section MonthFacts.

Variable parse : string -> Date.time.
Variable now : Z.
Variable monthKeyAgo : nat -> string.
Variable monthNameOf : string -> string.

Lemma lastMonths_from (rounds : list nat) (months : list string)
    (monthlyData : smap MonthData) :
  let state :=
    fold_left
      (fun (state : list string * smap MonthData) (i : nat) =>
         let (months, monthlyData) := state in
         let monthKey := monthKeyAgo i in
         (months ++ [monthKey], mapSet monthKey emptyMonth monthlyData))
      rounds (months, monthlyData) in
  fst state = months ++ map monthKeyAgo rounds /\
  forall k, mapGet k (snd state)
            = if existsb (String.eqb k) (map monthKeyAgo rounds)
              then Some emptyMonth else mapGet k monthlyData.
Proof.
  revert months monthlyData.
  induction rounds as [|i rounds IH]; intros months monthlyData; cbn zeta.
  - cbn [fold_left fst snd map existsb]. now rewrite app_nil_r.
  - cbn [fold_left map existsb].
    destruct (IH (months ++ [monthKeyAgo i])
                 (mapSet (monthKeyAgo i) emptyMonth monthlyData)) as [Hm Hd].
    cbn zeta in Hm, Hd. split.
    + rewrite Hm, <- app_assoc. reflexivity.
    + intros k. rewrite Hd, mapGet_set.
      destruct (String.eqb k (monthKeyAgo i)); cbn [orb]; [|reflexivity].
      now destruct (existsb (String.eqb k) (map monthKeyAgo rounds)).
Qed.

Lemma mapGet_monthStep (monthlyData : smap MonthData) (loan : LoanModel) (k : string) :
  mapGet k (monthStep parse now monthlyData loan)
  = if String.eqb (repaymentMonthOf loan) k
    then option_map (countLoan parse now loan) (mapGet k monthlyData)
    else mapGet k monthlyData.
Proof.
  unfold monthStep, mapHas. cbn zeta. rewrite (String.eqb_sym (repaymentMonthOf loan) k).
  destruct (mapGet (repaymentMonthOf loan) monthlyData) as [d|] eqn:E.
  - rewrite mapGet_update. destruct (String.eqb k (repaymentMonthOf loan)) eqn:Ek;
      [|reflexivity].
    apply String.eqb_eq in Ek. subst. reflexivity.
  - destruct (String.eqb k (repaymentMonthOf loan)) eqn:Ek; [|reflexivity].
    apply String.eqb_eq in Ek. subst. now rewrite E.
Qed.

Lemma mapGet_months (loans : list LoanModel) (monthlyData : smap MonthData) (k : string) :
  mapGet k (fold_left (monthStep parse now) loans monthlyData)
  = option_map
      (fun data =>
         fold_left (fun data loan => countLoan parse now loan data)
                   (loansOfMonth k loans) data)
      (mapGet k monthlyData).
Proof.
  revert monthlyData. unfold loansOfMonth.
  induction loans as [|l loans IH]; intros monthlyData; cbn [fold_left filter].
  - now destruct (mapGet k monthlyData).
  - rewrite IH, mapGet_monthStep.
    destruct (String.eqb (repaymentMonthOf l) k); [|reflexivity].
    now destruct (mapGet k monthlyData).
Qed.

Lemma monthDataOf_fields (ofMonth : list LoanModel) :
  monthDataOf parse now ofMonth
  = {| md_newLoans := len ofMonth;
       md_totalAmount := sumTotals ofMonth;
       md_paidLoans := len (filter isPaid ofMonth);
       md_overdueLoans := len (filter (isOverdue parse now) ofMonth) |}.
Proof.
  unfold monthDataOf.
  induction ofMonth as [|l ofMonth IH] using rev_ind; [reflexivity|].
  rewrite fold_left_app. cbn [fold_left]. rewrite IH. unfold countLoan.
  cbn [md_newLoans md_totalAmount md_paidLoans md_overdueLoans].
  rewrite sumTotals_snoc, !filter_app. cbn [filter]. unfold len.
  rewrite length_app. cbn [List.length]. rewrite Nat.add_1_r, ofNat_succ.
  destruct (isPaid l) eqn:Hp.
  - rewrite (paid_overdue_false parse now l Hp).
    rewrite app_nil_r, length_app. cbn [List.length]. rewrite Nat.add_1_r, ofNat_succ.
    reflexivity.
  - destruct (isOverdue parse now l).
    + rewrite !app_nil_r, length_app. cbn [List.length].
      rewrite Nat.add_1_r, ofNat_succ. reflexivity.
    + rewrite !app_nil_r. reflexivity.
Qed.

Lemma breakdownOf_all (monthlyData : smap MonthData) (months : list string)
    (dataAt : string -> MonthData) :
  (forall k, In k months -> mapGet k monthlyData = Some (dataAt k)) ->
  breakdownOf monthNameOf monthlyData months
  = Some (map (fun k => breakdownEntry monthNameOf k (dataAt k)) months).
Proof.
  induction months as [|k months IH]; intros H; cbn [breakdownOf map]; [reflexivity|].
  rewrite (H k (or_introl eq_refl)), IH; [reflexivity|].
  intros k' Hk'. apply H. now right.
Qed.

Lemma lastMonths_spec :
  fst (lastMonths monthKeyAgo) = map monthKeyAgo (rev (seq 0 12)) /\
  forall k, mapGet k (snd (lastMonths monthKeyAgo))
            = if existsb (String.eqb k) (map monthKeyAgo (rev (seq 0 12)))
              then Some emptyMonth else None.
Proof. exact (lastMonths_from (rev (seq 0 12)) [] []). Qed.

Lemma generateMonthlyBreakdown_eq (loans : list LoanModel) :
  generateMonthlyBreakdown parse now monthKeyAgo monthNameOf loans
  = Some (map (fun k => breakdownEntry monthNameOf k
                          (monthDataOf parse now (loansOfMonth k loans)))
              (map monthKeyAgo (rev (seq 0 12)))).
Proof.
  unfold generateMonthlyBreakdown.
  destruct lastMonths_spec as [Hm Hd]. revert Hm Hd.
  destruct (lastMonths monthKeyAgo) as [months monthlyData].
  cbn [fst snd]. intros -> Hd.
  apply breakdownOf_all. intros k Hk. rewrite mapGet_months, Hd.
  assert (E : existsb (String.eqb k) (map monthKeyAgo (rev (seq 0 12))) = true).
  { apply existsb_exists. exists k. split; [exact Hk | apply String.eqb_refl]. }
  rewrite E. reflexivity.
Qed.

End MonthFacts.

Lemma filter_disjoint_length {A : Type} (p q : A -> bool) (xs : list A) :
  (forall x, p x = true -> q x = false) ->
  (List.length (filter p xs) + List.length (filter q xs) <= List.length xs)%nat.
Proof.
  intros H. induction xs as [|x xs IH]; cbn [filter List.length]; [lia|].
  destruct (p x) eqn:Hp.
  - rewrite (H x Hp). cbn [List.length]. lia.
  - destruct (q x); cbn [List.length]; lia.
Qed.

Lemma breakdownEntry_fields (parse : string -> Date.time) (now : Z)
    (monthNameOf : string -> string) (month : string) (loans : list LoanModel) :
  let ofMonth := loansOfMonth month loans in
  let e := breakdownEntry monthNameOf month (monthDataOf parse now ofMonth) in
  mb_month e = monthNameOf month /\
  mb_newLoans e = len ofMonth /\
  mb_totalAmount e = sumTotals ofMonth /\
  mb_paidLoans e = len (filter isPaid ofMonth) /\
  mb_overdueLoans e = len (filter (isOverdue parse now) ofMonth) /\
  le (add (mb_paidLoans e) (mb_overdueLoans e)) (mb_newLoans e) = true /\
  (ofMonth = [] -> mb_averageAmount e = zero).
Proof.
  cbn zeta. rewrite monthDataOf_fields. unfold breakdownEntry.
  cbn [mb_month mb_newLoans mb_totalAmount mb_paidLoans mb_overdueLoans mb_averageAmount
       md_newLoans md_totalAmount md_paidLoans md_overdueLoans].
  split; [reflexivity|]. split; [reflexivity|]. split; [reflexivity|].
  split; [reflexivity|]. split; [reflexivity|]. split.
  - unfold len. rewrite add_ofNat. apply le_ofNat. apply filter_disjoint_length.
    intros l Hl. now apply paid_overdue_false.
  - intros ->. reflexivity.
Qed.

(** X24.  The monthly breakdown always has 12 entries, one for each
    month key of the first loop, from 11 months back to 0 months back;
    reading the map never fails.  The entry of a key counts the loans
    whose repayment date starts with that key: their number, the sum of
    their totals, the paid and the overdue ones, which together are
    never more than the loans of the month; a month without loans has
    the average amount 0.  Loans of other months are counted nowhere. *)
Theorem monthly_breakdown (parse : string -> Date.time) (now : Z)
    (monthKeyAgo : nat -> string) (monthNameOf : string -> string)
    (loans : list LoanModel) :
  exists breakdown,
    generateMonthlyBreakdown parse now monthKeyAgo monthNameOf loans = Some breakdown /\
    List.length breakdown = 12%nat /\
    forall (i : nat) (e : MonthlyBreakdown),
      nth_error breakdown i = Some e ->
      let month := monthKeyAgo (11 - i)%nat in
      let ofMonth := loansOfMonth month loans in
      mb_month e = monthNameOf month /\
      mb_newLoans e = len ofMonth /\
      mb_totalAmount e = sumTotals ofMonth /\
      mb_paidLoans e = len (filter isPaid ofMonth) /\
      mb_overdueLoans e = len (filter (isOverdue parse now) ofMonth) /\
      le (add (mb_paidLoans e) (mb_overdueLoans e)) (mb_newLoans e) = true /\
      (ofMonth = [] -> mb_averageAmount e = zero).
Proof.
  eexists. split; [apply generateMonthlyBreakdown_eq|]. split; [reflexivity|].
  intros i e He. cbn [seq rev app map] in He.
  do 12 (destruct i as [|i];
         [cbn [nth_error] in He; injection He as <-;
          apply (breakdownEntry_fields parse now monthNameOf)|]).
  destruct i; discriminate He.
Qed.

Lemma monthly_breakdown_witness :
  exists e,
    option_map (fun breakdown => nth_error breakdown 11)
      (generateMonthlyBreakdown Date.isoDay Sample.now
         (fun i => if Nat.eqb i 0 then "2025-06"%string else "2025-05"%string)
         (fun s => s) Sample.loans) = Some (Some e) /\
    mb_newLoans e = ofZ 2.
Proof.
  destruct (monthly_breakdown Date.isoDay Sample.now
              (fun i => if Nat.eqb i 0 then "2025-06"%string else "2025-05"%string)
              (fun s => s) Sample.loans) as [breakdown [Hb [Hlen H]]].
  destruct (nth_error breakdown 11) as [e|] eqn:He.
  - exists e. rewrite Hb. cbn [option_map]. rewrite He. split; [reflexivity|].
    destruct (H 11%nat e He) as [_ [Hnew _]]. rewrite Hnew. reflexivity.
  - exfalso. apply nth_error_None in He. rewrite Hlen in He. lia.
Defined.

(** *** The validation service on amounts and rates *)

Lemma cmp_antisym (x y : number) : cmp y x = option_map CompOpp (cmp x y).
Proof.
  destruct x as [a| | |], y as [b| | |]; try reflexivity.
  cbn [cmp option_map]. f_equal. unfold Qccompare. symmetry. apply Qcompare_antisym.
Qed.

Lemma lt_negb_le (x y : number) :
  isNaN x = false -> isNaN y = false -> lt x y = negb (le y x).
Proof.
  intros Hx Hy. unfold lt, le. rewrite (cmp_antisym x y).
  destruct x as [a| | |], y as [b| | |]; try discriminate; try reflexivity.
  cbn [cmp option_map]. now destruct (a ?= b).
Qed.

Lemma validateAmount_isValid (toLocaleString : number -> string)
    (repeatedDigits : number -> bool) (amount : number) :
  vr_isValid (validateAmount toLocaleString repeatedDigits amount noOptions)
  = le (ofZ 100) amount && le amount (ofZ 10000000).
Proof.
  unfold validateAmount. destruct (isNaN amount) eqn:HN.
  { destruct amount; try discriminate. reflexivity. }
  cbv zeta. cbn [minAmount maxAmount noOptions orNumber]. unfold gt.
  rewrite (lt_negb_le amount (ofZ 100) HN eq_refl).
  rewrite (lt_negb_le (ofZ 10000000) amount eq_refl HN).
  destruct (le amount zero) eqn:H0, (le (ofZ 100) amount) eqn:H1,
           (le amount (ofZ 10000000)) eqn:H2; try reflexivity;
    exfalso; pose proof (le_trans _ _ _ H1 H0) as H; vm_compute in H; discriminate.
Qed.

Lemma validateInterestRate_isValid (remHundredth : number -> number) (rate : number) :
  vr_isValid (validateInterestRate remHundredth rate)
  = le zero rate && le rate (ofZ 100).
Proof.
  unfold validateInterestRate. destruct (isNaN rate) eqn:HN.
  { destruct rate; try discriminate. reflexivity. }
  cbv zeta. unfold gt.
  rewrite (lt_negb_le rate zero HN eq_refl).
  rewrite (lt_negb_le (ofZ 100) rate eq_refl HN).
  destruct (le zero rate), (le rate (ofZ 100)); reflexivity.
Qed.

(** X25.  With no options [validateAmount] accepts exactly the amounts
    from 100 to 10,000,000; [NaN] and the infinities are refused.  A
    minimum of 0 in the options is not used: the result is the one for
    the default minimum of 100.  So an amount above 0 and below 100,
    which [isValidAmount] of the prompt accepts, is refused here, with
    the single error that names the minimum. *)
Theorem validateAmount_limits (toLocaleString : number -> string)
    (repeatedDigits : number -> bool) (amount : number) :
  vr_isValid (validateAmount toLocaleString repeatedDigits amount noOptions)
  = le (ofZ 100) amount && le amount (ofZ 10000000) /\
  (forall options m,
     minAmount options = Some m -> truthy m = false ->
     validateAmount toLocaleString repeatedDigits amount options
     = validateAmount toLocaleString repeatedDigits amount
         {| strictMode := strictMode options; allowFutureDates := allowFutureDates options;
            maxAmount := maxAmount options; minAmount := None;
            requiredFields := requiredFields options |}) /\
  (gt amount zero = true -> lt amount (ofZ 100) = true ->
   isValidAmount amount = true /\
   vr_isValid (validateAmount toLocaleString repeatedDigits amount noOptions) = false /\
   vr_errors (validateAmount toLocaleString repeatedDigits amount noOptions)
   = [("Amount must be at least ₦" ++ toLocaleString (ofZ 100))%string]).
Proof.
  split; [apply validateAmount_isValid|]. split.
  - intros options m Hm Hfalsy. unfold validateAmount.
    cbn [minAmount maxAmount]. rewrite Hm. cbn [orNumber]. rewrite Hfalsy.
    reflexivity.
  - intros Hpos Hsmall. split; [exact Hpos|]. split.
    + rewrite validateAmount_isValid.
      assert (HN : isNaN amount = false) by (destruct amount; (reflexivity || discriminate)).
      rewrite (lt_negb_le amount (ofZ 100) HN eq_refl) in Hsmall.
      apply negb_true_iff in Hsmall. now rewrite Hsmall.
    + assert (HN : isNaN amount = false) by (destruct amount; (reflexivity || discriminate)).
      unfold validateAmount. rewrite HN. cbv zeta.
      cbn [minAmount maxAmount noOptions orNumber vr_errors]. rewrite Hsmall.
      unfold gt in Hpos. rewrite (lt_negb_le zero amount eq_refl HN) in Hpos.
      apply negb_true_iff in Hpos. rewrite Hpos.
      assert (Hmax : gt amount (ofZ 10000000) = false).
      { unfold gt. rewrite (lt_negb_le (ofZ 10000000) amount eq_refl HN).
        apply negb_false_iff. apply le_trans with (ofZ 100).
        - now apply lt_implies_le.
        - vm_compute. reflexivity. }
      rewrite Hmax. reflexivity.
Qed.

Lemma validateAmount_limits_witness :
  isValidAmount (ofZ 50) = true /\
  vr_isValid (validateAmount (fun _ => "100"%string) (fun _ => false) (ofZ 50) noOptions)
  = false.
Proof.
  destruct (proj2 (proj2 (validateAmount_limits (fun _ => "100"%string) (fun _ => false)
                            (ofZ 50))))
    as [H1 [H2 _]].
  - vm_compute. reflexivity.
  - vm_compute. reflexivity.
  - split; [exact H1 | exact H2].
Defined.

(** X26.  [validateInterestRate] accepts exactly the rates from 0 to
    100.  For a loan whose amount passes [validateAmount] without
    options and whose rate, if it has one, passes
    [validateInterestRate], the total with interest is a finite number,
    at least the amount and at most 20,000,000. *)
Theorem validated_loan_total (toLocaleString : number -> string)
    (repeatedDigits : number -> bool) (remHundredth : number -> number)
    (l : LoanModel) :
  vr_isValid (validateAmount toLocaleString repeatedDigits (amount l) noOptions) = true ->
  (forall r, interestRate l = Some r ->
             vr_isValid (validateInterestRate remHundredth r) = true) ->
  (forall rate, vr_isValid (validateInterestRate remHundredth rate)
                = le zero rate && le rate (ofZ 100)) /\
  isFinite (calculateTotalWithInterest l) = true /\
  le (amount l) (calculateTotalWithInterest l) = true /\
  le (calculateTotalWithInterest l) (ofZ 20000000) = true.
Proof.
  intros Ha Hr. split; [intros rate; apply validateInterestRate_isValid|].
  rewrite validateAmount_isValid in Ha. apply andb_true_iff in Ha. destruct Ha as [Ha1 Ha2].
  unfold calculateTotalWithInterest, hasInterest.
  destruct (amount l) as [a| | |]; try discriminate.
  unfold ofZ in Ha1, Ha2. apply le_Num in Ha1. apply le_Num in Ha2.
  assert (Hplain : isFinite (Num a) = true /\ le (Num a) (Num a) = true /\
                   le (Num a) (ofZ 20000000) = true).
  { split; [reflexivity|]. unfold ofZ. rewrite !le_Num.
    clear - Ha1 Ha2. split; [apply Qcle_refl|].
    apply Qcle_trans with (Q2Qc (inject_Z 10000000)); [exact Ha2|].
    unfold Qcle. cbn. unfold Qle. cbn. lia. }
  destruct (interestRate l) as [r|]; [|exact Hplain].
  specialize (Hr r eq_refl). rewrite validateInterestRate_isValid in Hr.
  apply andb_true_iff in Hr. destruct Hr as [Hr1 Hr2].
  destruct (truthy r); [|exact Hplain].
  destruct r as [q| | |]; try discriminate.
  unfold zero, ofZ in Hr1, Hr2. apply le_Num in Hr1. apply le_Num in Hr2.
  cbn [mul]. unfold div, ofZ. rewrite Qc_hundred_pos. cbn [add isFinite].
  split; [reflexivity|]. rewrite !le_Num.
  assert (Hbig : Q2Qc (inject_Z 10000000) = Q2Qc (10000000 # 1)) by reflexivity.
  assert (H20 : Q2Qc (inject_Z 20000000) = Q2Qc (20000000 # 1)) by reflexivity.
  rewrite Hbig in Ha2. rewrite H20. clear Hbig H20 Hplain.
  clear - Ha1 Ha2 Hr1 Hr2.
  unfold Qclt, Qcle, Qcdiv, Qcinv, Qcminus, Qcplus, Qcmult, Qcopp, Q2Qc in *;
    cbn [this] in *; repeat rewrite Qred_correct in *.
  change (/ inject_Z 100)%Q with (1 # 100)%Q in *.
  change (inject_Z 100) with (100 # 1)%Q in *.
  change (inject_Z 0) with 0%Q in *.
  split; nra.
Qed.

Lemma validated_loan_total_witness :
  le (calculateTotalWithInterest Sample.dueYesterday) (ofZ 20000000) = true.
Proof.
  refine (proj2 (proj2 (proj2
    (validated_loan_total (fun _ => "100"%string) (fun _ => false) (fun _ => zero)
       Sample.dueYesterday _ _)))).
  - vm_compute. reflexivity.
  - intros r Hr. injection Hr as <-. vm_compute. reflexivity.
Defined.

(** *** Searching the loans *)

Lemma filter_none {A : Type} (f : A -> bool) (xs : list A) :
  (forall x, f x = false) -> filter f xs = [].
Proof.
  intros H. induction xs as [|x xs IH]; cbn [filter]; [reflexivity|]. now rewrite H.
Qed.

(** X27.  A search by amount range finds the loans whose total lies
    between the two bounds, so none when the lower bound is above the
    upper one or a bound is [NaN]; a search by date range whose start or
    end cannot be read finds nothing; a search by the status paid,
    overdue or pending finds what the list view shows under that
    filter, and by another status every loan. *)
Theorem search_ranges_and_status (parse : string -> Date.time) (now : Z)
    (toLowerCase : string -> string) (includes : string -> string -> bool)
    (loans : list LoanModel) :
  (forall min max l,
     In l (searchLoansWithCriteria parse now toLowerCase includes loans
             (SearchAmountRange min max)) <->
     In l loans /\ le min (calculateTotalWithInterest l) = true /\
     le (calculateTotalWithInterest l) max = true) /\
  (forall min max,
     le min max = false ->
     searchLoansWithCriteria parse now toLowerCase includes loans
       (SearchAmountRange min max) = []) /\
  (forall start end_,
     parse start = None \/ parse end_ = None ->
     searchLoansWithCriteria parse now toLowerCase includes loans
       (SearchDateRange start end_) = []) /\
  searchLoansWithCriteria parse now toLowerCase includes loans (SearchStatus "paid")
  = filterLoans parse now loans FilterPaid /\
  searchLoansWithCriteria parse now toLowerCase includes loans (SearchStatus "overdue")
  = filterLoans parse now loans FilterOverdue /\
  searchLoansWithCriteria parse now toLowerCase includes loans (SearchStatus "pending")
  = filterLoans parse now loans FilterPending /\
  (forall value,
     value <> "paid"%string -> value <> "overdue"%string -> value <> "pending"%string ->
     searchLoansWithCriteria parse now toLowerCase includes loans (SearchStatus value)
     = loans).
Proof.
  split; [|split; [|split; [|split; [|split; [|split]]]]]; try reflexivity.
  - intros min max l. cbn [searchLoansWithCriteria]. rewrite filter_In. cbv zeta.
    rewrite andb_true_iff. unfold ge. tauto.
  - intros min max Hrange. cbn [searchLoansWithCriteria]. apply filter_none.
    intros l. cbv zeta. unfold ge.
    destruct (le min (calculateTotalWithInterest l)) eqn:H1;
      destruct (le (calculateTotalWithInterest l) max) eqn:H2; try reflexivity.
    rewrite (le_trans _ _ _ H1 H2) in Hrange. discriminate.
  - intros start end_ Hbad. cbn [searchLoansWithCriteria]. apply filter_none.
    intros l. cbv zeta. unfold Date_le, Date.ge.
    destruct Hbad as [H | H]; rewrite H.
    + now destruct (parse (repaymentDate l)).
    + apply andb_false_r.
  - intros value H1 H2 H3. cbn [searchLoansWithCriteria].
    apply String.eqb_neq in H1, H2, H3. now rewrite H1, H2, H3.
Qed.

Lemma search_ranges_and_status_witness :
  searchLoansWithCriteria Date.isoDay Sample.now (fun s => s) (fun _ _ => false)
    Sample.loans (SearchAmountRange (ofZ 60000) (ofZ 50000)) = [].
Proof.
  apply (proj1 (proj2 (search_ranges_and_status Date.isoDay Sample.now (fun s => s)
                         (fun _ _ => false) Sample.loans))).
  vm_compute. reflexivity.
Defined.
